(** * The SIR epidemic simulator of [sir_model_py.py]

    A shallow embedding of the two simulators of the repository,
    [sir_model] and [simulate_intervention], together with the facts the
    specification states about the series they return.

    Numbers.  The source computes with numpy [float64] cells.  The
    simulators are embedded once, over the operations they apply to their
    numbers (the class [Arith]), and that interface has two instances:

    - [binary64_arith]: the cells are IEEE 754 binary64 floats, the
      arithmetic of the source.  Sums and products round, overflow to
      [inf], and [0 / 0] is [nan], as in numpy.
    - [exact_arith]: the cells are exact rationals ([Fin q], no rounding and
      no overflow) or the token [NonFinite], which stands for [inf], [-inf]
      and [nan].  This is the arithmetic the specification calls exact.

    What is proved for every instance holds of the source as it runs; what
    is proved for [exact_arith] holds of the recurrence in exact arithmetic
    and is stated as such.

    Arrays.  [np.zeros], [a[i]] and [a[i] = v] are modelled on lists with
    the exceptions numpy raises; the functions live in the [result] monad.

    Callers.  The two model runners of [dashboard.py] and the setup script
    [setup_dashboard.py] follow the simulators; what they reach outside the
    repository (processes, files, the R script) is a field of a record. *)

From Stdlib Require Import Floats.PrimFloat.
From Stdlib Require Floats.SpecFloat Floats.FloatOps.
From Stdlib Require Import ZArith QArith Qcanon Lia Lqa.
From Stdlib Require Import Qround.
From stdpp Require Import base tactics option list numbers.
From stdpp Require Import strings gmap.

Local Open Scope Z_scope.

(* A decimal float literal denotes the nearest binary64 value, as in Python. *)
Set Warnings "-inexact-float".

(** ** Python exceptions and the error monad *)

Inductive exn : Type :=
  | ValueError   (* np.zeros(n) with n < 0; DataFrame columns of unequal length *)
  | IndexError.  (* a[i] with i out of bounds *)

Inductive result (A : Type) : Type :=
  | Ok (a : A)
  | Raise (e : exn).
Arguments Ok {A} a.
Arguments Raise {A} e.

Global Instance result_ret : MRet result := λ A a, Ok a.
Global Instance result_bind : MBind result := λ A B f m,
  match m with
  | Ok a => f a
  | Raise e => Raise e
  end.

(** ** The arithmetic of the simulators

    [param] is the type of the numeric arguments ([N], [I0], [R0], the
    rates), [cell] the type of an array cell.  The fields are the operations
    the source applies to them. *)

Class Arith (param cell : Type) : Type := {
  (* a cell of np.zeros *)
  c_zero : cell;
  (* an argument stored in a cell, or met by a cell in a product *)
  to_cell : param → cell;
  (* N - I0 - R0 *)
  p_sub : param → param → param;
  c_add : cell → cell → cell;
  c_sub : cell → cell → cell;
  c_mul : cell → cell → cell;
  (* ... / N *)
  c_div : cell → param → cell;
  (* a Python int passed as an argument *)
  of_int : Z → param;
  (* the least [T] with [t < x] if and only if [t < T], for the integers
     [t >= 0]; [None] when every integer is below [x] *)
  int_threshold : param → option Z
}.

(** ** Exact cells: rationals extended with a non-finite token *)

Inductive num : Type :=
  | Fin (q : Qc)
  | NonFinite.

Global Instance num_eq_dec : EqDecision num.
Proof. solve_decision. Defined.

Module Num.

(** [x + y], [x - y], [x * y] in exact arithmetic: any non-finite operand
    gives a non-finite result ([inf + 1 = inf], [inf - inf = nan],
    [inf * 0 = nan], ...). *)
Definition add (x y : num) : num :=
  match x, y with
  | Fin a, Fin b => Fin (a + b)%Qc
  | _, _ => NonFinite
  end.

Definition sub (x y : num) : num :=
  match x, y with
  | Fin a, Fin b => Fin (a - b)%Qc
  | _, _ => NonFinite
  end.

Definition mul (x y : num) : num :=
  match x, y with
  | Fin a, Fin b => Fin (a * b)%Qc
  | _, _ => NonFinite
  end.

(** [x / d] for a finite divisor [d] (the population argument): a zero
    divisor gives [inf], [-inf] or [nan], never an exception. *)
Definition div (x : num) (d : Qc) : num :=
  match x with
  | Fin a => if decide (d = 0%Qc) then NonFinite else Fin (a / d)%Qc
  | NonFinite => NonFinite
  end.

(** Order on cells, defined on finite values only. *)
Definition le (x y : num) : Prop :=
  match x, y with
  | Fin a, Fin b => (a <= b)%Qc
  | _, _ => False
  end.

End Num.

(** Exact arithmetic: no operation rounds or overflows. *)
Global Instance exact_arith : Arith Qc num := {|
  c_zero := Fin 0%Qc;
  to_cell := Fin;
  p_sub := Qcminus;
  c_add := Num.add;
  c_sub := Num.sub;
  c_mul := Num.mul;
  c_div := Num.div;
  of_int := λ z, Q2Qc (inject_Z z);
  int_threshold := λ x, Some (Qceiling x)
|}.

(** ** Binary64 cells: the arithmetic of the source *)

Module Binary64.
Import PrimFloat SpecFloat.

(** [float(z)] for a Python int: the nearest binary64 value, ties to even.
    (Past the binary64 range Python raises [OverflowError]; here the value
    is [inf].) *)
Definition of_Z (z : Z) : float :=
  FloatOps.SF2Prim (binary_normalize FloatOps.prec FloatOps.emax z 0 false).

(** The integers below a float: [t < x] for an int [t] compares the exact
    values, so it is [t < ceiling x] for a finite [x], false for [nan] and
    [-inf], true for [inf]. *)
Definition threshold (x : float) : option Z :=
  match FloatOps.Prim2SF x with
  | S754_zero _ => Some 0
  | S754_nan => Some 0
  | S754_infinity true => Some 0
  | S754_infinity false => None
  | S754_finite s m e =>
      let n := if s then Z.neg m else Z.pos m in
      Some (if 0 <=? e then n * 2 ^ e else - ((- n) / 2 ^ (- e)))
  end.

(** [x <= y] on floats: false when either is [nan]. *)
Definition le (x y : float) : Prop := leb x y = true.

(** [|x - y| <= rel_tol * |y|] *)
Definition isclose (rel_tol x y : float) : Prop :=
  leb (abs (sub x y)) (mul rel_tol (abs y)) = true.

End Binary64.

Global Instance binary64_arith : Arith PrimFloat.float PrimFloat.float := {|
  c_zero := PrimFloat.zero;
  to_cell := λ x, x;
  p_sub := PrimFloat.sub;
  c_add := PrimFloat.add;
  c_sub := PrimFloat.sub;
  c_mul := PrimFloat.mul;
  c_div := PrimFloat.div;
  of_int := Binary64.of_Z;
  int_threshold := Binary64.threshold
|}.

(** ** numpy arrays of cells *)

(** [np.zeros(n)] *)
Definition np_zeros {param cell : Type} `{!Arith param cell} (n : Z)
  : result (list cell) :=
  if n <? 0 then Raise ValueError
  else Ok (replicate (Z.to_nat n) c_zero).

(** Index normalisation of [a[i]]: a negative index counts from the end, an
    index outside [-len, len) raises [IndexError]. *)
Definition index (len : nat) (i : Z) : result nat :=
  if (0 <=? i) && (i <? Z.of_nat len) then Ok (Z.to_nat i)
  else if (- Z.of_nat len <=? i) && (i <? 0) then Ok (Z.to_nat (i + Z.of_nat len))
  else Raise IndexError.

(** [a[i]] *)
Definition getitem {cell : Type} (a : list cell) (i : Z) : result cell :=
  k ← index (length a) i;
  match a !! k with
  | Some v => Ok v
  | None => Raise IndexError
  end.

(** [a[i] = v] *)
Definition setitem {cell : Type} (a : list cell) (i : Z) (v : cell)
  : result (list cell) :=
  k ← index (length a) i;
  Ok (<[k:=v]> a).

(** [range(lo, hi)] and [range(n)] *)
Definition range2 (lo hi : Z) : list Z := seqZ lo (hi - lo).
Definition range (n : Z) : list Z := range2 0 n.

(** [for t in l: body], threading the loop's variables. *)
Fixpoint for_each {St : Type} (l : list Z) (body : Z → St → result St) (s : St)
  : result St :=
  match l with
  | [] => Ok s
  | t :: l' => s' ← body t s; for_each l' body s'
  end.

(** ** The returned data frame *)

Record DataFrame (cell : Type) : Type := mkDataFrame {
  time : list Z;
  susceptible : list cell;
  infectious : list cell;
  recovered : list cell
}.
Arguments mkDataFrame {cell} _ _ _ _.
Arguments time {cell} _.
Arguments susceptible {cell} _.
Arguments infectious {cell} _.
Arguments recovered {cell} _.

(** [pd.DataFrame({...})]: the columns must have one length. *)
Definition pd_DataFrame {cell : Type} (tm : list Z) (S I R : list cell)
  : result (DataFrame cell) :=
  if decide (length S = length tm ∧ length I = length tm ∧ length R = length tm)
  then Ok (mkDataFrame tm S I R)
  else Raise ValueError.

(** The three arrays the loops update in place. *)
Record arrays (cell : Type) : Type := mkArrays {
  arr_S : list cell;
  arr_I : list cell;
  arr_R : list cell
}.
Arguments mkArrays {cell} _ _ _.
Arguments arr_S {cell} _.
Arguments arr_I {cell} _.
Arguments arr_R {cell} _.

(** ** [sir_model] *)

(** Body of the loop of [sir_model] (source lines 45-50). *)
Definition sir_model_body {param cell : Type} `{!Arith param cell}
    (N beta gamma : param) (t : Z) (a : arrays cell) : result (arrays cell) :=
  let S := arr_S a in
  let I := arr_I a in
  let R := arr_R a in
  St ← getitem S t;
  It ← getitem I t;
  let new_infections := c_div (c_mul (c_mul (to_cell beta) St) It) N in
  It ← getitem I t;
  let new_recoveries := c_mul (to_cell gamma) It in
  St ← getitem S t;
  S ← setitem S (t + 1) (c_sub St new_infections);
  It ← getitem I t;
  I ← setitem I (t + 1) (c_sub (c_add It new_infections) new_recoveries);
  Rt ← getitem R t;
  R ← setitem R (t + 1) (c_add Rt new_recoveries);
  Ok (mkArrays S I R).

Definition sir_model {param cell : Type} `{!Arith param cell}
    (N I0 R0 beta gamma : param) (timesteps : Z) : result (DataFrame cell) :=
  let S0 := p_sub (p_sub N I0) R0 in
  S ← np_zeros timesteps;
  I ← np_zeros timesteps;
  R ← np_zeros timesteps;
  S ← setitem S 0 (to_cell S0);
  I ← setitem I 0 (to_cell I0);
  R ← setitem R 0 (to_cell R0);
  a ← for_each (range (timesteps - 1)) (sir_model_body N beta gamma) (mkArrays S I R);
  pd_DataFrame (range2 1 (timesteps + 1)) (arr_S a) (arr_I a) (arr_R a).

(** ** [simulate_intervention] *)

(** Body of the loop of [simulate_intervention] (source lines 105-112). *)
Definition simulate_intervention_body {param cell : Type} `{!Arith param cell}
    (N beta_before beta_after : param) (intervention_time : Z) (gamma : param)
    (t : Z) (a : arrays cell) : result (arrays cell) :=
  let S := arr_S a in
  let I := arr_I a in
  let R := arr_R a in
  let current_beta := if t <? intervention_time then beta_before else beta_after in
  St ← getitem S t;
  It ← getitem I t;
  let new_infections := c_div (c_mul (c_mul (to_cell current_beta) St) It) N in
  It ← getitem I t;
  let new_recoveries := c_mul (to_cell gamma) It in
  St ← getitem S t;
  S ← setitem S (t + 1) (c_sub St new_infections);
  It ← getitem I t;
  I ← setitem I (t + 1) (c_sub (c_add It new_infections) new_recoveries);
  Rt ← getitem R t;
  R ← setitem R (t + 1) (c_add Rt new_recoveries);
  Ok (mkArrays S I R).

Definition simulate_intervention {param cell : Type} `{!Arith param cell}
    (N I0 R0 beta_before beta_after : param) (intervention_time : Z)
    (gamma : param) (timesteps : Z) : result (DataFrame cell) :=
  let S0 := p_sub (p_sub N I0) R0 in
  S ← np_zeros timesteps;
  I ← np_zeros timesteps;
  R ← np_zeros timesteps;
  S ← setitem S 0 (to_cell S0);
  I ← setitem I 0 (to_cell I0);
  R ← setitem R 0 (to_cell R0);
  a ← for_each (range (timesteps - 1))
        (simulate_intervention_body N beta_before beta_after intervention_time gamma)
        (mkArrays S I R);
  pd_DataFrame (range2 1 (timesteps + 1)) (arr_S a) (arr_I a) (arr_R a).

(** ** The Euler recurrence the loops compute *)

(** One state of the model: the cells at one internal index. *)
Record state (cell : Type) : Type := mkState {
  st_S : cell;
  st_I : cell;
  st_R : cell
}.
Arguments mkState {cell} _ _ _.
Arguments st_S {cell} _.
Arguments st_I {cell} _.
Arguments st_R {cell} _.

(** One step of the loop body on the three cells it reads. *)
Definition euler {param cell : Type} `{!Arith param cell}
    (N beta gamma : param) (s : state cell) : state cell :=
  let new_infections :=
    c_div (c_mul (c_mul (to_cell beta) (st_S s)) (st_I s)) N in
  let new_recoveries := c_mul (to_cell gamma) (st_I s) in
  mkState (c_sub (st_S s) new_infections)
          (c_sub (c_add (st_I s) new_infections) new_recoveries)
          (c_add (st_R s) new_recoveries).

(** The state at internal index [k], when step [t] uses the rate [cb t]. *)
Fixpoint traj {param cell : Type} `{!Arith param cell}
    (N : param) (cb : Z → param) (gamma : param) (s0 : state cell) (k : nat)
  : state cell :=
  match k with
  | O => s0
  | S k' => euler N (cb (Z.of_nat k')) gamma (traj N cb gamma s0 k')
  end.

Definition init_state {param cell : Type} `{!Arith param cell}
    (N I0 R0 : param) : state cell :=
  mkState (to_cell (p_sub (p_sub N I0) R0)) (to_cell I0) (to_cell R0).

(** The rate [simulate_intervention] uses at step [t]. *)
Definition current_beta {param : Type} (beta_before beta_after : param)
    (intervention_time t : Z) : param :=
  if t <? intervention_time then beta_before else beta_after.

(** The arrays hold the trajectory [tr] on the indices [0..k]. *)
Definition filled {cell : Type} (tr : nat → state cell) (n k : nat)
    (a : arrays cell) : Prop :=
  length (arr_S a) = n ∧ length (arr_I a) = n ∧ length (arr_R a) = n ∧
  ∀ j, (j ≤ k)%nat →
    arr_S a !! j = Some (st_S (tr j)) ∧
    arr_I a !! j = Some (st_I (tr j)) ∧
    arr_R a !! j = Some (st_R (tr j)).

(** The record of a data frame at internal index [k]. *)
Definition record_at {cell : Type} (df : DataFrame cell) (k : nat)
  : option (Z * state cell) :=
  tm ← time df !! k;
  s ← susceptible df !! k;
  i ← infectious df !! k;
  r ← recovered df !! k;
  Some (tm, mkState s i r).

(** The data frame holds the trajectory [tr] on [n] records labelled [1..n]. *)
Definition frame_of {cell : Type} (tr : nat → state cell) (n : nat)
    (df : DataFrame cell) : Prop :=
  length (time df) = n ∧ length (susceptible df) = n ∧
  length (infectious df) = n ∧ length (recovered df) = n ∧
  ∀ k, (k < n)%nat → record_at df k = Some (Z.of_nat k + 1, tr k).

(** Both simulators are one loop, run at a rate that may depend on the step. *)
Definition simulate_with {param cell : Type} `{!Arith param cell}
    (N I0 R0 : param) (cb : Z → param) (gamma : param) (timesteps : Z)
  : result (DataFrame cell) :=
  S ← np_zeros timesteps;
  I ← np_zeros timesteps;
  R ← np_zeros timesteps;
  S ← setitem S 0 (to_cell (p_sub (p_sub N I0) R0));
  I ← setitem I 0 (to_cell I0);
  R ← setitem R 0 (to_cell R0);
  a ← for_each (range (timesteps - 1)) (λ t, sir_model_body N (cb t) gamma t)
        (mkArrays S I R);
  pd_DataFrame (range2 1 (timesteps + 1)) (arr_S a) (arr_I a) (arr_R a).

(** The first record is the initial condition. *)
Definition starts_at {param cell : Type} `{!Arith param cell}
    (N I0 R0 : param) (df : DataFrame cell) : Prop :=
  susceptible df !! O = Some (to_cell (p_sub (p_sub N I0) R0))
  ∧ infectious df !! O = Some (to_cell I0)
  ∧ recovered df !! O = Some (to_cell R0).

(** [n] records, labelled [1, 2, ..., n] in that order. *)
Definition labelled {cell : Type} (n : Z) (df : DataFrame cell) : Prop :=
  length (time df) = Z.to_nat n ∧ length (susceptible df) = Z.to_nat n
  ∧ length (infectious df) = Z.to_nat n ∧ length (recovered df) = Z.to_nat n
  ∧ ∀ k : nat, Z.of_nat k < n → time df !! k = Some (Z.of_nat k + 1).

(** ** Statements about whole series *)

(** Every record [k] of the [n] records of [df] is labelled [k + 1] and its
    cells satisfy [P k]. *)
Definition each_record {cell : Type} (df : DataFrame cell) (n : Z)
    (P : nat → state cell → Prop) : Prop :=
  ∀ k : nat, Z.of_nat k < n →
    ∃ st, record_at df k = Some (Z.of_nat k + 1, st) ∧ P k st.

Definition result_map {A B : Type} (f : A → B) (r : result A) : result B :=
  match r with
  | Ok a => Ok (f a)
  | Raise e => Raise e
  end.

(** The frame that holds the trajectory [tr] on [n] records. *)
Definition frame_from {cell : Type} (tr : nat → state cell) (n : nat)
  : DataFrame cell :=
  mkDataFrame (seqZ 1 (Z.of_nat n))
    ((λ k, st_S (tr k)) <$> seq 0 n)
    ((λ k, st_I (tr k)) <$> seq 0 n)
    ((λ k, st_R (tr k)) <$> seq 0 n).

(** [df.head(n)]: the first [n] records. *)
Definition head_frame {cell : Type} (n : nat) (df : DataFrame cell)
  : DataFrame cell :=
  mkDataFrame (take n (time df)) (take n (susceptible df))
              (take n (infectious df)) (take n (recovered df)).

(** ** Statements in exact arithmetic *)

(** The sum of the three compartments of a state. *)
Definition total (st : state num) : num :=
  Num.add (Num.add (st_S st) (st_I st)) (st_R st).

(** All compartments finite and non-negative, summing to [N]. *)
Definition within (N : Qc) (st : state num) : Prop :=
  ∃ s i r : Qc, st = mkState (Fin s) (Fin i) (Fin r)
    ∧ (0 <= s)%Qc ∧ (0 <= i)%Qc ∧ (0 <= r)%Qc ∧ (s + i + r)%Qc = N.

(** A finite infectious cell comes with a finite recovered cell. *)
Definition rec_finite (st : state num) : Prop :=
  ∀ i, st_I st = Fin i → ∃ r, st_R st = Fin r.

Ltac qc_lra :=
  unfold Qcle, Qclt, Qcminus, Qcplus, Qcopp in *; simpl this in *;
  rewrite ?Qred_correct in *; lra.

(** The three compartments of record [k] sum to the population. *)
Definition conserved (N : Qc) (df : DataFrame num) (k : nat) : Prop :=
  ∃ s i r, susceptible df !! k = Some s ∧ infectious df !! k = Some i
    ∧ recovered df !! k = Some r ∧ Num.add (Num.add s i) r = Fin N.

(** The three compartments of record [k] are finite and lie in [0, N]. *)
Definition bounded (N : Qc) (df : DataFrame num) (k : nat) : Prop :=
  ∃ s i r : Qc, susceptible df !! k = Some (Fin s) ∧ infectious df !! k = Some (Fin i)
    ∧ recovered df !! k = Some (Fin r)
    ∧ ((0 <= s)%Qc ∧ (s <= N)%Qc) ∧ ((0 <= i)%Qc ∧ (i <= N)%Qc)
    ∧ ((0 <= r)%Qc ∧ (r <= N)%Qc).

(** ** Statements in binary64 arithmetic *)

(** The sum of the three compartments of record [k] is the population up to
    the relative tolerance [rel_tol]. *)
Definition conserved_within (rel_tol N : PrimFloat.float)
    (df : DataFrame PrimFloat.float) (k : nat) : Prop :=
  ∃ s i r, susceptible df !! k = Some s ∧ infectious df !! k = Some i
    ∧ recovered df !! k = Some r
    ∧ Binary64.isclose rel_tol (PrimFloat.add (PrimFloat.add s i) r) N.

(** The three compartments of record [k] lie in [0, N]. *)
Definition bounded_binary64 (N : PrimFloat.float)
    (df : DataFrame PrimFloat.float) (k : nat) : Prop :=
  ∃ s i r, susceptible df !! k = Some s ∧ infectious df !! k = Some i
    ∧ recovered df !! k = Some r
    ∧ (Binary64.le PrimFloat.zero s ∧ Binary64.le s N)
    ∧ (Binary64.le PrimFloat.zero i ∧ Binary64.le i N)
    ∧ (Binary64.le PrimFloat.zero r ∧ Binary64.le r N).

(** The recovered column never falls from one record to the next. *)
Definition recovered_non_decreasing (df : DataFrame PrimFloat.float) : Prop :=
  ∀ (k : nat) (r r' : PrimFloat.float),
    recovered df !! k = Some r → recovered df !! S k = Some r' → Binary64.le r r'.

(** ** The callers of the simulators: [dashboard.py]

    The dashboard runs a model through R when [Rscript] answers and falls
    back to the Python simulators.  What lies outside the repository's
    Python code (the [Rscript] process, the temporary file, the R script and
    the CSV it writes) is a field of [world]; the [@st.cache] memoisation of
    [run_sir_model] is not modelled: a call is a call that runs. *)

(** The exceptions met in this layer. *)
Inductive exception : Type :=
  | Builtin (e : exn)              (* raised inside a simulator *)
  | KeyError (key : string)        (* params[key] on a missing key *)
  | TypeError                      (* np.zeros(timesteps) on a float *)
  | FileNotFoundError              (* subprocess.run: no such program *)
  | CalledProcessError (code : Z)  (* subprocess.run(check=True): exit code <> 0 *)
  | OtherException (name : string).

Inductive outcome (A : Type) : Type :=
  | Return (a : A)
  | Throw (e : exception).
Arguments Return {A} a.
Arguments Throw {A} e.

Global Instance outcome_ret : MRet outcome := λ A a, Return a.
Global Instance outcome_bind : MBind outcome := λ A B f m,
  match m with
  | Return a => f a
  | Throw e => Throw e
  end.

(** A Python number: an [int] or a [float]. *)
Inductive pyval (param : Type) : Type :=
  | PyInt (z : Z)
  | PyFloat (x : param).
Arguments PyInt {param} z.
Arguments PyFloat {param} x.

(** A number as the simulators' arithmetic takes it.  (An int is taken at
    its value as a float; for ints of magnitude up to [2^53] that is the
    value the source's arithmetic gives it.) *)
Definition to_param {param cell : Type} `{!Arith param cell} (v : pyval param)
  : param :=
  match v with
  | PyInt z => of_int z
  | PyFloat x => x
  end.

(** [params[key]] *)
Definition dict_get {param : Type} (params : gmap string (pyval param)) (key : string)
  : outcome (pyval param) :=
  match params !! key with
  | Some v => Return v
  | None => Throw (KeyError key)
  end.

(** Calling [sir_model] with Python numbers: [np.zeros] rejects a float
    [timesteps]. *)
Definition call_sir_model {param cell : Type} `{!Arith param cell}
    (N I0 R0 beta gamma timesteps : pyval param) : outcome (DataFrame cell) :=
  match timesteps with
  | PyFloat _ => Throw TypeError
  | PyInt n =>
      match sir_model (to_param N) (to_param I0) (to_param R0) (to_param beta)
              (to_param gamma) n with
      | Ok df => Return df
      | Raise e => Throw (Builtin e)
      end
  end.

(** For an integer [t], [t < intervention_time] with a float
    [intervention_time] is [t < ceiling(intervention_time)]; with [inf] it
    holds at every step of the run. *)
Definition as_threshold {param cell : Type} `{!Arith param cell}
    (v : pyval param) (timesteps : Z) : Z :=
  match v with
  | PyInt z => z
  | PyFloat x => default timesteps (int_threshold x)
  end.

Definition call_simulate_intervention {param cell : Type} `{!Arith param cell}
    (N I0 R0 beta_before beta_after intervention_time gamma timesteps : pyval param)
  : outcome (DataFrame cell) :=
  match timesteps with
  | PyFloat _ => Throw TypeError
  | PyInt n =>
      match simulate_intervention (to_param N) (to_param I0) (to_param R0)
              (to_param beta_before) (to_param beta_after)
              (as_threshold intervention_time n) (to_param gamma) n with
      | Ok df => Return df
      | Raise e => Throw (Builtin e)
      end
  end.

(** What [subprocess.run(cmd, ...)] meets: the program exits with a code, or
    starting it raises. *)
Inductive process : Type :=
  | Exited (code : Z)
  | NotStarted (e : exception).

(** [subprocess.run(cmd, check=check).returncode] *)
Definition subprocess_run (check : bool) (p : process) : outcome Z :=
  match p with
  | Exited code =>
      if check && negb (code =? 0) then Throw (CalledProcessError code)
      else Return code
  | NotStarted e => Throw e
  end.

Record world (param cell : Type) : Type := mkWorld {
  (* ['Rscript', '--version'] *)
  rscript_version : process;
  PYTHON_MODEL_AVAILABLE : bool;
  (* tempfile.NamedTemporaryFile(...) raising *)
  named_temporary_file : option exception;
  (* writing the script with these values, running it, reading the CSV back
     and removing both files *)
  r_sir_model : list (pyval param) → outcome (DataFrame cell);
  r_simulate_intervention : list (pyval param) → outcome (DataFrame cell)
}.
Arguments mkWorld {param cell} _ _ _ _ _.
Arguments rscript_version {param cell} _.
Arguments PYTHON_MODEL_AVAILABLE {param cell} _.
Arguments named_temporary_file {param cell} _.
Arguments r_sir_model {param cell} _ _.
Arguments r_simulate_intervention {param cell} _ _.

(** The messages shown through [st.info], [st.warning] and [st.error]. *)
Inductive message : Type :=
  | st_info
  | st_warning (e : exception)
  | st_error (e : exception).

(** [is_r_available()] (lines 57-66) *)
Definition is_r_available {param cell : Type} (w : world param cell) : outcome bool :=
  match subprocess_run false (rscript_version w) with
  | Return returncode => Return (returncode =? 0)
  | Throw FileNotFoundError => Return false
  | Throw e => Throw e
  end.

(** The call [sir_model_py(N=params['population'], ...)] (lines 75-82 and
    122-129). *)
Definition sir_model_py {param cell : Type} `{!Arith param cell}
    (params : gmap string (pyval param)) : outcome (DataFrame cell) :=
  N ← dict_get params "population";
  I0 ← dict_get params "initial_infected";
  R0 ← dict_get params "initial_recovered";
  beta ← dict_get params "beta";
  gamma ← dict_get params "gamma";
  timesteps ← dict_get params "timesteps";
  call_sir_model N I0 R0 beta gamma timesteps.

(** The [try] block of [run_sir_model] (lines 86-117). *)
Definition run_sir_model_r {param cell : Type} (w : world param cell)
    (params : gmap string (pyval param)) : outcome (DataFrame cell) :=
  match named_temporary_file w with
  | Some e => Throw e
  | None =>
      N ← dict_get params "population";
      I0 ← dict_get params "initial_infected";
      R0 ← dict_get params "initial_recovered";
      beta ← dict_get params "beta";
      gamma ← dict_get params "gamma";
      timesteps ← dict_get params "timesteps";
      r_sir_model w [N; I0; R0; beta; gamma; timesteps]
  end.

(** [run_sir_model(params)] (lines 70-133): the messages shown and the
    result. *)
Definition run_sir_model {param cell : Type} `{!Arith param cell}
    (w : world param cell) (params : gmap string (pyval param))
  : list message * outcome (DataFrame cell) :=
  match is_r_available w with
  | Throw e => ([], Throw e)
  | Return r_available =>
      if negb r_available && PYTHON_MODEL_AVAILABLE w then
        ([st_info], sir_model_py params)
      else
        match run_sir_model_r w params with
        | Return results_df => ([], Return results_df)
        | Throw e =>
            if PYTHON_MODEL_AVAILABLE w then ([st_warning e], sir_model_py params)
            else ([st_error e], Throw e)
        end
  end.

(** The call [simulate_intervention_py(N=params['population'], ...)] (lines
    141-150 and 192-201). *)
Definition simulate_intervention_py {param cell : Type} `{!Arith param cell}
    (params : gmap string (pyval param)) : outcome (DataFrame cell) :=
  N ← dict_get params "population";
  I0 ← dict_get params "initial_infected";
  R0 ← dict_get params "initial_recovered";
  beta_before ← dict_get params "beta_before";
  beta_after ← dict_get params "beta_after";
  intervention_time ← dict_get params "intervention_time";
  gamma ← dict_get params "gamma";
  timesteps ← dict_get params "timesteps";
  call_simulate_intervention N I0 R0 beta_before beta_after intervention_time gamma
    timesteps.

(** The [try] block of [run_intervention_model] (lines 154-187). *)
Definition run_intervention_model_r {param cell : Type} (w : world param cell)
    (params : gmap string (pyval param)) : outcome (DataFrame cell) :=
  match named_temporary_file w with
  | Some e => Throw e
  | None =>
      N ← dict_get params "population";
      I0 ← dict_get params "initial_infected";
      R0 ← dict_get params "initial_recovered";
      beta_before ← dict_get params "beta_before";
      beta_after ← dict_get params "beta_after";
      intervention_time ← dict_get params "intervention_time";
      gamma ← dict_get params "gamma";
      timesteps ← dict_get params "timesteps";
      r_simulate_intervention w
        [N; I0; R0; beta_before; beta_after; intervention_time; gamma; timesteps]
  end.

(** [run_intervention_model(params)] (lines 136-205). *)
Definition run_intervention_model {param cell : Type} `{!Arith param cell}
    (w : world param cell) (params : gmap string (pyval param))
  : list message * outcome (DataFrame cell) :=
  match is_r_available w with
  | Throw e => ([], Throw e)
  | Return r_available =>
      if negb r_available && PYTHON_MODEL_AVAILABLE w then
        ([st_info], simulate_intervention_py params)
      else
        match run_intervention_model_r w params with
        | Return results_df => ([], Return results_df)
        | Throw e =>
            if PYTHON_MODEL_AVAILABLE w then
              ([st_warning e], simulate_intervention_py params)
            else ([st_error e], Throw e)
        end
  end.

(** The keys [run_sir_model] and [run_intervention_model] read, in the order
    they read them. *)
Definition sir_keys : list string :=
  ["population"; "initial_infected"; "initial_recovered"; "beta"; "gamma";
   "timesteps"].

Definition intervention_keys : list string :=
  ["population"; "initial_infected"; "initial_recovered"; "beta_before";
   "beta_after"; "intervention_time"; "gamma"; "timesteps"].

(** The first of [keys] that [params] lacks. *)
Definition first_missing {param : Type} (keys : list string)
    (params : gmap string (pyval param)) : option string :=
  snd <$> list_find (λ key, params !! key = None) keys.

(** The parameters the dashboard builds for the basic model (lines 260-267)
    and for the intervention model (lines 299-308). *)
Definition basic_params {param : Type}
    (population initial_infected initial_recovered : Z)
    (beta gamma : param) (timesteps : Z) : gmap string (pyval param) :=
  <["population" := PyInt population]>
  (<["initial_infected" := PyInt initial_infected]>
  (<["initial_recovered" := PyInt initial_recovered]>
  (<["beta" := PyFloat beta]>
  (<["gamma" := PyFloat gamma]>
  (<["timesteps" := PyInt timesteps]> ∅))))).

Definition intervention_params {param : Type}
    (population initial_infected initial_recovered : Z)
    (beta beta_after : param) (intervention_time : Z) (gamma : param) (timesteps : Z)
  : gmap string (pyval param) :=
  <["population" := PyInt population]>
  (<["initial_infected" := PyInt initial_infected]>
  (<["initial_recovered" := PyInt initial_recovered]>
  (<["beta_before" := PyFloat beta]>
  (<["beta_after" := PyFloat beta_after]>
  (<["intervention_time" := PyInt intervention_time]>
  (<["gamma" := PyFloat gamma]>
  (<["timesteps" := PyInt timesteps]> ∅))))))).

(** A machine without R, and a machine whose R script fails, both with the
    Python simulators importable. *)
Definition world_without_r {param cell : Type} : world param cell :=
  mkWorld (NotStarted FileNotFoundError) true None
    (λ _, Throw FileNotFoundError) (λ _, Throw FileNotFoundError).

Definition world_with_failing_r {param cell : Type} : world param cell :=
  mkWorld (Exited 0) true None
    (λ _, Throw (CalledProcessError 1)) (λ _, Throw (CalledProcessError 1)).

(** ** The setup script: [setup_dashboard.py]

    The script prints and starts processes; a run is the list of what it
    printed and started, with what it returned or raised. *)

Inductive event : Type :=
  | Print (line : string)
  | Run (cmd : list string).

Definition script (A : Type) : Type := list event * outcome A.

Global Instance script_ret : MRet script := λ A a, ([], Return a).
Global Instance script_bind : MBind script := λ A B f m,
  match m with
  | (log, Return a) => let '(log', r) := f a in (log ++ log', r)
  | (log, Throw e) => (log, Throw e)
  end.

Definition print (line : string) : script unit := ([Print line], Return tt).

(** [subprocess.run(cmd, check=True)] *)
Definition run_checked (cmd : list string) (p : process) : script Z :=
  ([Run cmd], subprocess_run true p).

(** [except subprocess.SubprocessError] catches this exception. *)
Definition is_subprocess_error (e : exception) : bool :=
  match e with
  | CalledProcessError _ => true
  | _ => false
  end.

Definition is_file_not_found (e : exception) : bool :=
  match e with
  | FileNotFoundError => true
  | _ => false
  end.

Record machine : Type := mkMachine {
  version_info : Z * Z;     (* the first two fields of sys.version_info *)
  version : string;         (* sys.version *)
  executable : string;      (* sys.executable *)
  rscript_probe : process;  (* ['Rscript', '--version'] *)
  rscript_install : process;  (* ['Rscript', 'install_packages.R'] *)
  pip_install : process     (* [sys.executable, '-m', 'pip', 'install', '-r', 'requirements.txt'] *)
}.

(** [sys.version_info < (3, 7)]: tuples compare lexicographically, and a
    longer tuple with the prefix [(3, 7)] is not smaller. *)
Definition version_too_old (m : machine) : bool :=
  let '(major, minor) := version_info m in
  (major <? 3) || ((major =? 3) && (minor <? 7)).

(** [check_python_version()] (lines 6-12) *)
Definition check_python_version (m : machine) : script bool :=
  if version_too_old m then
    _ ← print "Error: Python 3.7 or higher is required.";
    _ ← print ("Current Python version: " +:+ version m);
    mret false
  else mret true.

(** [check_r_installation()] (lines 14-22) *)
Definition check_r_installation (m : machine) : script bool :=
  match run_checked ["Rscript"; "--version"] (rscript_probe m) with
  | (log, Return _) => (log, Return true)
  | (log, Throw e) =>
      if is_subprocess_error e || is_file_not_found e then
        (log ++ [Print "Error: R is not installed or not in PATH.";
                 Print "Please install R from https://www.r-project.org/"],
         Return false)
      else (log, Throw e)
  end.

(** [install_r_packages()] (lines 24-34) *)
Definition install_r_packages (m : machine) : script bool :=
  _ ← print "
Installing required R packages...";
  match run_checked ["Rscript"; "install_packages.R"] (rscript_install m) with
  | (log, Return _) =>
      (log ++ [Print "R packages installed successfully."], Return true)
  | (log, Throw e) =>
      if is_subprocess_error e then
        (log ++ [Print "Error: Failed to install R packages.";
                 Print "Please run 'Rscript install_packages.R' manually."],
         Return false)
      else (log, Throw e)
  end.

(** [install_python_packages()] (lines 36-46) *)
Definition install_python_packages (m : machine) : script bool :=
  _ ← print "
Installing required Python packages...";
  match run_checked [executable m; "-m"; "pip"; "install"; "-r"; "requirements.txt"]
          (pip_install m) with
  | (log, Return _) =>
      (log ++ [Print "Python packages installed successfully."], Return true)
  | (log, Throw e) =>
      if is_subprocess_error e then
        (log ++ [Print "Error: Failed to install Python packages.";
                 Print "Please run 'pip install -r requirements.txt' manually."],
         Return false)
      else (log, Throw e)
  end.

(** [main()] (lines 48-67) *)
Definition main (m : machine) : script bool :=
  _ ← print "===== Epidemiological Modeling Dashboard Setup =====
";
  python_ok ← check_python_version m;
  if negb python_ok then mret false else
  r_ok ← check_r_installation m;
  if negb r_ok then mret false else
  _ ← install_r_packages m;
  _ ← install_python_packages m;
  _ ← print "
===== Setup Complete =====";
  _ ← print "You can now run the dashboard with: streamlit run dashboard.py";
  mret true.

(** The processes a run started. *)
Definition started (log : list event) : list (list string) :=
  omap (λ ev, match ev with Run cmd => Some cmd | Print _ => None end) log.

(** A machine with Python 3.11 and R, on which both installations fail. *)
Definition machine_with_failing_installs : machine :=
  mkMachine (3, 11) "3.11.4" "/usr/bin/python3" (Exited 0) (Exited 1) (Exited 1).

(** An installation step lets an exception through when starting the
    process raises something that is not a [SubprocessError]. *)
Definition propagates (p : process) : bool :=
  match p with
  | Exited _ => false
  | NotStarted e => negb (is_subprocess_error e)
  end.


(** * Array and loop lemmas *)

Section arrays.
Context {cell : Type}.
Implicit Types (a : list cell) (k : nat) (v : cell).

Lemma index_nat len k : (k < len)%nat → index len (Z.of_nat k) = Ok k.
Proof.
  intros Hk. unfold index.
  destruct (Z.leb_spec 0 (Z.of_nat k)); [|lia].
  destruct (Z.ltb_spec (Z.of_nat k) (Z.of_nat len)); [|lia].
  simpl. by rewrite Nat2Z.id.
Qed.

Lemma getitem_nat a k v : a !! k = Some v → getitem a (Z.of_nat k) = Ok v.
Proof.
  intros Hv. unfold getitem.
  rewrite index_nat by (by eapply lookup_lt_Some).
  simpl. by rewrite Hv.
Qed.

Lemma setitem_nat a k v :
  (k < length a)%nat → setitem a (Z.of_nat k) v = Ok (<[k:=v]> a).
Proof. intros Hk. unfold setitem. by rewrite index_nat. Qed.

Lemma setitem_succ a k v :
  (S k < length a)%nat → setitem a (Z.of_nat k + 1) v = Ok (<[S k:=v]> a).
Proof.
  intros Hk. replace (Z.of_nat k + 1) with (Z.of_nat (S k)) by lia.
  by apply setitem_nat.
Qed.
End arrays.

Lemma for_each_app {St : Type} (l1 l2 : list Z) (body : Z → St → result St) (s : St) :
  for_each (l1 ++ l2) body s = s' ← for_each l1 body s; for_each l2 body s'.
Proof.
  revert s. induction l1 as [|t l1 IH]; intros s; simpl; [done|].
  destruct (body t s) as [s'|e]; simpl; [apply IH|done].
Qed.

(** Two bodies that agree on every index of the list run the same loop. *)
Lemma for_each_ext {St : Type} (l : list Z) (f g : Z → St → result St) (s : St) :
  (∀ t, t ∈ l → ∀ s', f t s' = g t s') → for_each l f s = for_each l g s.
Proof.
  revert s. induction l as [|t l IH]; intros s Hfg; simpl; [done|].
  rewrite (Hfg t) by (apply elem_of_cons; auto).
  destruct (g t s) as [s'|e]; simpl; [|done].
  apply IH. intros t' Ht'. apply Hfg. apply elem_of_cons; auto.
Qed.

(** Reading the columns of a record. *)
Lemma record_at_Some {cell : Type} (df : DataFrame cell) k tm st :
  record_at df k = Some (tm, st) →
  time df !! k = Some tm ∧ susceptible df !! k = Some (st_S st)
  ∧ infectious df !! k = Some (st_I st) ∧ recovered df !! k = Some (st_R st).
Proof.
  unfold record_at. intros H.
  destruct (time df !! k) as [tm'|]; simpl in H; [|done].
  destruct (susceptible df !! k) as [s|]; simpl in H; [|done].
  destruct (infectious df !! k) as [i|]; simpl in H; [|done].
  destruct (recovered df !! k) as [r|]; simpl in H; [|done].
  by simplify_eq.
Qed.

Section frames.
Context {cell : Type}.
Implicit Types (tr : nat → state cell) (df : DataFrame cell).

Lemma frame_of_lookup tr n df k :
  frame_of tr n df → (k < n)%nat →
  time df !! k = Some (Z.of_nat k + 1)
  ∧ susceptible df !! k = Some (st_S (tr k))
  ∧ infectious df !! k = Some (st_I (tr k))
  ∧ recovered df !! k = Some (st_R (tr k)).
Proof.
  intros (_ & _ & _ & _ & Hrec) Hk. by apply record_at_Some, Hrec.
Qed.

Lemma frame_of_labelled tr timesteps df :
  frame_of tr (Z.to_nat timesteps) df → labelled timesteps df.
Proof.
  intros Hfr. pose proof Hfr as (Ht & HS & HI & HR & _).
  repeat (split; [done|]). intros k Hk.
  by destruct (frame_of_lookup _ _ _ k Hfr) as (? & _); [lia|].
Qed.

Lemma frame_of_each tr n df (P : nat → state cell → Prop) :
  frame_of tr (Z.to_nat n) df →
  (∀ k : nat, Z.of_nat k < n → P k (tr k)) →
  each_record df n P.
Proof.
  intros (_ & _ & _ & _ & Hrec) HP k Hk.
  exists (tr k). split; [apply Hrec; lia|by apply HP].
Qed.

(** A frame is determined by the trajectory it holds. *)
Lemma frame_of_frame_from tr n df : frame_of tr n df → df = frame_from tr n.
Proof.
  intros Hfr. pose proof Hfr as (Ht & HS & HI & HR & _).
  destruct df as [tm cS cI cR]; simpl in *. unfold frame_from. f_equal.
  - apply list_eq_same_length with n; [by rewrite length_seqZ, Nat2Z.id|done|].
    intros k x y Hk Hx Hy.
    destruct (frame_of_lookup _ _ _ k Hfr Hk) as (Hx' & _); simpl in Hx'.
    rewrite lookup_seqZ_lt in Hy by lia. simplify_eq. lia.
  - apply list_eq_same_length with n; [by rewrite length_fmap, length_seq|done|].
    intros k x y Hk Hx Hy.
    destruct (frame_of_lookup _ _ _ k Hfr Hk) as (_ & Hx' & _); simpl in Hx'.
    rewrite list_lookup_fmap, lookup_seq_lt in Hy by done. simpl in Hy. by simplify_eq.
  - apply list_eq_same_length with n; [by rewrite length_fmap, length_seq|done|].
    intros k x y Hk Hx Hy.
    destruct (frame_of_lookup _ _ _ k Hfr Hk) as (_ & _ & Hx' & _); simpl in Hx'.
    rewrite list_lookup_fmap, lookup_seq_lt in Hy by done. simpl in Hy. by simplify_eq.
  - apply list_eq_same_length with n; [by rewrite length_fmap, length_seq|done|].
    intros k x y Hk Hx Hy.
    destruct (frame_of_lookup _ _ _ k Hfr Hk) as (_ & _ & _ & Hx'); simpl in Hx'.
    rewrite list_lookup_fmap, lookup_seq_lt in Hy by done. simpl in Hy. by simplify_eq.
Qed.

Lemma frame_of_frame_from_intro tr n : frame_of tr n (frame_from tr n).
Proof.
  unfold frame_of, frame_from, record_at; simpl.
  rewrite length_seqZ, !length_fmap, length_seq, Nat2Z.id.
  do 4 (split; [done|]). intros k Hk.
  rewrite lookup_seqZ_lt, !list_lookup_fmap, lookup_seq_lt by lia. simpl.
  replace (1 + Z.of_nat k) with (Z.of_nat k + 1) by lia. by destruct (tr k).
Qed.

(** Reading a property of every record off the trajectory. *)
Lemma each_record_frame_from tr timesteps (P : nat → state cell → Prop) :
  (∀ k : nat, Z.of_nat k < timesteps → P k (tr k)) →
  each_record (frame_from tr (Z.to_nat timesteps)) timesteps P.
Proof. apply frame_of_each, frame_of_frame_from_intro. Qed.

Lemma take_seqZ m (n n' : nat) :
  (n ≤ n')%nat → take n (seqZ m (Z.of_nat n')) = seqZ m (Z.of_nat n).
Proof.
  intros Hn. unfold seqZ. rewrite <- fmap_take, !Nat2Z.id, take_seq.
  by replace (n `min` n')%nat with n by lia.
Qed.

Lemma frame_from_head tr (n n' : nat) :
  (n ≤ n')%nat → head_frame n (frame_from tr n') = frame_from tr n.
Proof.
  intros Hn. unfold head_frame, frame_from; simpl.
  rewrite take_seqZ, <- !fmap_take, take_seq by done.
  by replace (n `min` n')%nat with n by lia.
Qed.
End frames.

(** * The loop computes the recurrence, in any arithmetic *)

Section simulators.
Context {param cell : Type} `{!Arith param cell}.
Implicit Types (N beta gamma bb ba : param) (cb : Z → param).
Implicit Types (a : arrays cell) (df : DataFrame cell).

Lemma np_zeros_nat (n : nat) : np_zeros (Z.of_nat n) = Ok (replicate n c_zero).
Proof.
  unfold np_zeros. destruct (Z.ltb_spec (Z.of_nat n) 0); [lia|].
  by rewrite Nat2Z.id.
Qed.

(** The intervention body is the plain body at the rate of the step. *)
Lemma simulate_intervention_body_eq N bb ba it gamma t a :
  simulate_intervention_body N bb ba it gamma t a
  = sir_model_body N (current_beta bb ba it t) gamma t a.
Proof. reflexivity. Qed.

Lemma sir_model_simulate_with N (I0 R0 : param) beta gamma timesteps :
  sir_model N I0 R0 beta gamma timesteps
  = simulate_with N I0 R0 (λ _, beta) gamma timesteps.
Proof. reflexivity. Qed.

Lemma simulate_intervention_simulate_with N (I0 R0 : param) bb ba it gamma timesteps :
  simulate_intervention N I0 R0 bb ba it gamma timesteps
  = simulate_with N I0 R0 (current_beta bb ba it) gamma timesteps.
Proof. reflexivity. Qed.

(** One iteration extends the filled prefix by one index. *)
Lemma sir_model_body_step N cb gamma (s0 : state cell) n k a :
  filled (traj N cb gamma s0) n k a → (S k < n)%nat →
  ∃ a', sir_model_body N (cb (Z.of_nat k)) gamma (Z.of_nat k) a = Ok a'
        ∧ filled (traj N cb gamma s0) n (S k) a'.
Proof.
  intros (HlS & HlI & HlR & Hpre) Hk.
  destruct (Hpre k (le_n k)) as (HS & HI & HR).
  unfold sir_model_body.
  rewrite (getitem_nat _ _ _ HS), (getitem_nat _ _ _ HI), (getitem_nat _ _ _ HR).
  simpl. rewrite !setitem_succ by lia. simpl.
  eexists; split; [reflexivity|].
  unfold filled; simpl. rewrite !length_insert.
  do 3 (split; [done|]).
  intros j Hj. destruct (decide (j = S k)) as [->|Hne].
  - rewrite !list_lookup_insert_eq by lia. done.
  - rewrite !list_lookup_insert_ne by done. apply Hpre. lia.
Qed.

(** The loop over [range(m)] fills the indices [0..m]. *)
Lemma for_each_filled N cb gamma (s0 : state cell) n m a :
  filled (traj N cb gamma s0) n 0 a → (m < n)%nat →
  ∃ a', for_each (range (Z.of_nat m)) (λ t, sir_model_body N (cb t) gamma t) a = Ok a'
        ∧ filled (traj N cb gamma s0) n m a'.
Proof.
  intros H0 Hm. unfold range, range2. rewrite Z.sub_0_r.
  induction m as [|m IH]; [by exists a|].
  destruct IH as (a1 & Hrun & Hfill); [lia|].
  destruct (sir_model_body_step N cb gamma s0 n m a1 Hfill Hm) as (a2 & Hstep & Hfill2).
  exists a2. split; [|done].
  rewrite seqZ_S, for_each_app, Hrun, Z.add_0_l. simpl. by rewrite Hstep.
Qed.

(** The arrays after the three initial stores. *)
Lemma filled_init N (I0 R0 : param) cb gamma (n : nat) (zS zI zR : list cell) :
  length zS = n → length zI = n → length zR = n →
  filled (traj N cb gamma (init_state N I0 R0)) (S n) 0
    (mkArrays (to_cell (p_sub (p_sub N I0) R0) :: zS) (to_cell I0 :: zI)
       (to_cell R0 :: zR)).
Proof.
  intros HS HI HR. unfold filled; simpl. rewrite HS, HI, HR.
  do 3 (split; [done|]).
  intros j Hj. by replace j with O by lia.
Qed.

(** A run of at least one step returns the frame of the trajectory. *)
Lemma simulate_with_frame N (I0 R0 : param) cb gamma timesteps :
  1 ≤ timesteps →
  ∃ df, simulate_with N I0 R0 cb gamma timesteps = Ok df
        ∧ frame_of (traj N cb gamma (init_state N I0 R0)) (Z.to_nat timesteps) df.
Proof.
  intros Hts.
  destruct (Z.to_nat timesteps) as [|n] eqn:Hn; [lia|].
  assert (timesteps = Z.of_nat (S n)) as -> by lia. clear Hts Hn.
  unfold simulate_with. rewrite np_zeros_nat. simpl.
  replace (Z.of_nat (S n) - 1) with (Z.of_nat n) by lia.
  match goal with
  | |- context [for_each _ _ ?a0] =>
      destruct (for_each_filled N cb gamma (init_state N I0 R0) (S n) n a0)
        as (a & -> & HlS & HlI & HlR & Hpre)
  end; [by apply filled_init; rewrite length_replicate|lia|].
  simpl. unfold pd_DataFrame, range2.
  replace (Z.of_nat (S n) + 1 - 1) with (Z.of_nat (S n)) by lia.
  rewrite decide_True by (rewrite length_seqZ; lia).
  eexists; split; [reflexivity|].
  unfold frame_of, record_at; simpl.
  rewrite length_seqZ, Nat2Z.id.
  do 4 (split; [done|]).
  intros k Hk. destruct (Hpre k) as (-> & -> & ->); [lia|].
  rewrite lookup_seqZ_lt by lia. simpl.
  replace (1 + Z.of_nat k) with (Z.of_nat k + 1) by lia.
  by destruct (traj _ _ _ _ k).
Qed.

(** A run of less than one step raises. *)
Lemma simulate_with_raise N (I0 R0 : param) cb gamma timesteps :
  timesteps < 1 →
  simulate_with N I0 R0 cb gamma timesteps
  = Raise (if timesteps <? 0 then ValueError else IndexError).
Proof.
  intros Hts. unfold simulate_with, np_zeros.
  destruct (Z.ltb_spec timesteps 0); [done|].
  by replace timesteps with 0 by lia.
Qed.

(** The run only looks at the rates of the steps [0..timesteps-2]. *)
Lemma simulate_with_ext N (I0 R0 : param) cb1 cb2 gamma timesteps :
  (∀ t, 0 ≤ t < timesteps - 1 → cb1 t = cb2 t) →
  simulate_with N I0 R0 cb1 gamma timesteps = simulate_with N I0 R0 cb2 gamma timesteps.
Proof.
  intros Hcb. unfold simulate_with.
  destruct (np_zeros timesteps) as [z|e]; simpl; [|done].
  destruct (setitem z 0 (to_cell (p_sub (p_sub N I0) R0))) as [S|e]; simpl; [|done].
  destruct (setitem z 0 (to_cell I0)) as [I|e]; simpl; [|done].
  destruct (setitem z 0 (to_cell R0)) as [R|e]; simpl; [|done].
  rewrite (for_each_ext _ (λ t, sir_model_body N (cb1 t) gamma t)
                          (λ t, sir_model_body N (cb2 t) gamma t)); [done|].
  intros t Ht a. unfold range, range2 in Ht. apply elem_of_seqZ in Ht.
  rewrite Hcb by lia. done.
Qed.

(** The state at index [k] only depends on the rates of the steps before [k]. *)
Lemma traj_ext N cb1 cb2 gamma (s0 : state cell) k :
  (∀ t, 0 ≤ t < Z.of_nat k → cb1 t = cb2 t) →
  traj N cb1 gamma s0 k = traj N cb2 gamma s0 k.
Proof.
  induction k as [|k IH]; intros Hcb; simpl; [done|].
  rewrite IH by (intros; apply Hcb; lia).
  rewrite Hcb by lia. done.
Qed.

Lemma sir_model_frame N (I0 R0 : param) beta gamma timesteps :
  1 ≤ timesteps →
  ∃ df, sir_model N I0 R0 beta gamma timesteps = Ok df
        ∧ frame_of (traj N (λ _, beta) gamma (init_state N I0 R0))
            (Z.to_nat timesteps) df.
Proof. rewrite sir_model_simulate_with. apply simulate_with_frame. Qed.

Lemma simulate_intervention_frame N (I0 R0 : param) bb ba it gamma timesteps :
  1 ≤ timesteps →
  ∃ df, simulate_intervention N I0 R0 bb ba it gamma timesteps = Ok df
        ∧ frame_of (traj N (current_beta bb ba it) gamma (init_state N I0 R0))
            (Z.to_nat timesteps) df.
Proof. rewrite simulate_intervention_simulate_with. apply simulate_with_frame. Qed.

Lemma frame_of_starts_at N cb gamma (I0 R0 : param) n df :
  frame_of (traj N cb gamma (init_state N I0 R0)) (S n) df → starts_at N I0 R0 df.
Proof.
  intros Hfr. destruct (frame_of_lookup _ _ _ O Hfr) as (_ & HS & HI & HR); [lia|].
  done.
Qed.

(** The result of a run, in one equation. *)
Lemma simulate_with_eq N (I0 R0 : param) cb gamma timesteps :
  simulate_with N I0 R0 cb gamma timesteps
  = if timesteps <? 1
    then Raise (if timesteps <? 0 then ValueError else IndexError)
    else Ok (frame_from (traj N cb gamma (init_state N I0 R0)) (Z.to_nat timesteps)).
Proof.
  destruct (Z.ltb_spec timesteps 1) as [Hts|Hts].
  - by apply simulate_with_raise.
  - destruct (simulate_with_frame N I0 R0 cb gamma timesteps Hts) as (df & -> & Hfr).
    f_equal. by apply frame_of_frame_from.
Qed.

Lemma sir_model_eq N (I0 R0 : param) beta gamma timesteps :
  sir_model N I0 R0 beta gamma timesteps
  = if timesteps <? 1
    then Raise (if timesteps <? 0 then ValueError else IndexError)
    else Ok (frame_from (traj N (λ _, beta) gamma (init_state N I0 R0))
               (Z.to_nat timesteps)).
Proof. rewrite sir_model_simulate_with. apply simulate_with_eq. Qed.

Lemma simulate_intervention_eq N (I0 R0 : param) bb ba it gamma timesteps :
  simulate_intervention N I0 R0 bb ba it gamma timesteps
  = if timesteps <? 1
    then Raise (if timesteps <? 0 then ValueError else IndexError)
    else Ok (frame_from (traj N (current_beta bb ba it) gamma (init_state N I0 R0))
               (Z.to_nat timesteps)).
Proof. rewrite simulate_intervention_simulate_with. apply simulate_with_eq. Qed.
End simulators.

(** * Exact arithmetic: one step *)

Section step.
Local Open Scope Qc_scope.
Variables (N beta gamma : Qc).

Lemma euler_fin s i r :
  N ≠ 0 →
  euler N beta gamma (mkState (Fin s) (Fin i) (Fin r))
  = mkState (Fin (s - beta * s * i / N))
            (Fin (i + beta * s * i / N - gamma * i))
            (Fin (r + gamma * i)).
Proof. intros HN. unfold euler; simpl. by rewrite decide_False. Qed.

(** A step moves mass between compartments: the sum is unchanged. *)
Lemma euler_total (st : state num) : N ≠ 0 → total (euler N beta gamma st) = total st.
Proof.
  intros HN. destruct st as [[s|] [i|] [r|]]; try done;
    unfold total, euler; simpl; rewrite ?decide_False by done; try done.
  simpl. f_equal. generalize (beta * s * i / N). intros x. ring.
Qed.

(** The recovered cell grows by [gamma * I]. *)
Lemma euler_recovered (st : state num) i r :
  st_I st = Fin i → st_R st = Fin r →
  st_R (euler N beta gamma st) = Fin (r + gamma * i).
Proof. intros HI HR. unfold euler; simpl. by rewrite HI, HR. Qed.

Lemma euler_rec_finite (st : state num) : rec_finite st → rec_finite (euler N beta gamma st).
Proof.
  intros Hst i' Hi'. unfold rec_finite in Hst.
  destruct st as [sS [i|] sR]; simpl in *.
  - destruct (Hst i eq_refl) as [r ->]. eauto.
  - unfold euler in Hi'; simpl in Hi'. by destruct sS.
Qed.

(** New infections never exceed the susceptible cell. *)
Lemma new_infections_bounds s i :
  0 < N → 0 <= beta → beta <= 1 → 0 <= s → 0 <= i → i <= N →
  0 <= beta * s * i / N ∧ beta * s * i / N <= s.
Proof.
  intros HN Hb0 Hb1 Hs Hi HiN.
  assert (N ≠ 0) as HN0 by (intros ->; by apply (Qclt_not_eq 0 0)).
  assert (0 <= / N) as HinvN by (by apply Qclt_le_weak, Qcinv_pos).
  split.
  - unfold Qcdiv. by repeat apply Qcmult_nonneg_nonneg.
  - assert (beta * i / N <= 1) as Hfrac.
    { apply (Qcmult_lt_0_le_reg_r _ _ N HN).
      replace (beta * i / N * N) with (beta * i) by (field; done).
      rewrite Qcmult_1_l. apply Qcle_trans with (1 * i); [|by rewrite Qcmult_1_l].
      by apply Qcmult_le_mono_nonneg_r. }
    replace (beta * s * i / N) with (s * (beta * i / N)) by (field; done).
    rewrite <- (Qcmult_1_r s) at 2. by apply Qcmult_le_mono_nonneg_l.
Qed.

Lemma new_recoveries_bounds i :
  0 <= gamma → gamma <= 1 → 0 <= i → 0 <= gamma * i ∧ gamma * i <= i.
Proof.
  intros Hg0 Hg1 Hi. split; [by apply Qcmult_nonneg_nonneg|].
  rewrite <- (Qcmult_1_l i) at 2. by apply Qcmult_le_mono_nonneg_r.
Qed.

(** Within the caller's ranges a step keeps every compartment
    non-negative. *)
Lemma euler_within st :
  0 < N → 0 <= beta → beta <= 1 → 0 <= gamma → gamma <= 1 →
  within N st → within N (euler N beta gamma st).
Proof.
  intros HN Hb0 Hb1 Hg0 Hg1 (s & i & r & -> & Hs & Hi & Hr & Hsum).
  assert (N ≠ 0) as HN0 by (intros ->; by apply (Qclt_not_eq 0 0)).
  assert (i <= N) as HiN by (rewrite <- Hsum; clear Hsum; qc_lra).
  destruct (new_infections_bounds s i HN Hb0 Hb1 Hs Hi HiN) as [Hx0 Hxs].
  destruct (new_recoveries_bounds i Hg0 Hg1 Hi) as [Hy0 Hyi].
  rewrite euler_fin by done.
  revert Hx0 Hxs Hy0 Hyi.
  generalize (beta * s * i / N) (gamma * i). intros x y Hx0 Hxs Hy0 Hyi.
  exists (s - x), (i + x - y), (r + y). split; [done|].
  split; [clear Hsum; qc_lra|]. split; [clear Hsum; qc_lra|].
  split; [clear Hsum; qc_lra|]. rewrite <- Hsum. ring.
Qed.

Lemma within_bounds st :
  within N st →
  ∃ s i r : Qc, st = mkState (Fin s) (Fin i) (Fin r)
    ∧ (0 <= s ∧ s <= N) ∧ (0 <= i ∧ i <= N) ∧ (0 <= r ∧ r <= N).
Proof.
  intros (s & i & r & -> & Hs & Hi & Hr & Hsum).
  exists s, i, r. split; [done|]. rewrite <- Hsum. clear Hsum.
  repeat split; qc_lra.
Qed.
End step.

(** * Exact arithmetic: invariants of the trajectory *)

Section trajectory.
Variables (N : Qc) (cb : Z → Qc) (gamma : Qc).

Lemma traj_total I0 R0 k :
  N ≠ 0%Qc → total (traj N cb gamma (init_state N I0 R0) k) = Fin N.
Proof.
  intros HN. induction k as [|k IH]; simpl.
  - unfold total; simpl. f_equal. ring.
  - by rewrite euler_total.
Qed.

Lemma traj_rec_finite I0 R0 k :
  rec_finite (traj N cb gamma (init_state N I0 R0) k).
Proof.
  induction k as [|k IH]; simpl.
  - intros i _. eauto.
  - by apply euler_rec_finite.
Qed.

Lemma traj_within I0 R0 k :
  (0 < N)%Qc → (0 <= I0)%Qc → (0 <= R0)%Qc → (I0 + R0 <= N)%Qc →
  (∀ t, 0 ≤ t < Z.of_nat k → (0 <= cb t)%Qc ∧ (cb t <= 1)%Qc) →
  (0 <= gamma)%Qc → (gamma <= 1)%Qc →
  within N (traj N cb gamma (init_state N I0 R0) k).
Proof.
  intros HN HI0 HR0 HIR Hcb Hg0 Hg1. induction k as [|k IH]; simpl.
  - exists (N - I0 - R0)%Qc, I0, R0. split; [done|].
    split; [qc_lra|]. do 2 (split; [done|]). ring.
  - destruct (Hcb (Z.of_nat k)) as [Hb0 Hb1]; [lia|].
    apply euler_within; try done. apply IH. intros t Ht. apply Hcb. lia.
Qed.
End trajectory.

Lemma frame_of_conserved N cb gamma I0 R0 n df k :
  N ≠ 0%Qc → frame_of (traj N cb gamma (init_state N I0 R0)) n df → (k < n)%nat →
  conserved N df k.
Proof.
  intros HN Hfr Hk. destruct (frame_of_lookup _ _ _ _ Hfr Hk) as (_ & HS & HI & HR).
  eexists _, _, _. repeat (split; [eassumption|]).
  by apply (traj_total N cb gamma I0 R0 k).
Qed.

(** ** A zero population *)

Lemma euler_zero_population beta gamma st :
  st_S (euler 0%Qc beta gamma st) = NonFinite
  ∧ st_I (euler 0%Qc beta gamma st) = NonFinite.
Proof. unfold euler. by destruct st as [[s|] [i|] r]. Qed.

Lemma euler_recovered_not_finite N beta gamma st :
  st_I st = NonFinite → st_R (euler N beta gamma st) = NonFinite.
Proof. intros HI. unfold euler; simpl. rewrite HI. by destruct (st_R st). Qed.

Lemma traj_zero_population cb gamma s0 k :
  (1 ≤ k)%nat →
  st_S (traj 0%Qc cb gamma s0 k) = NonFinite
  ∧ st_I (traj 0%Qc cb gamma s0 k) = NonFinite
  ∧ ((2 ≤ k)%nat → st_R (traj 0%Qc cb gamma s0 k) = NonFinite).
Proof.
  intros Hk. destruct k as [|k]; [lia|]. simpl.
  destruct (euler_zero_population (cb (Z.of_nat k)) gamma (traj 0%Qc cb gamma s0 k))
    as [HS HI].
  do 2 (split; [done|]). intros Hk2.
  destruct k as [|k]; [lia|].
  apply (euler_recovered_not_finite 0%Qc (cb (Z.of_nat (S k))) gamma
           (traj 0%Qc cb gamma s0 (S k))).
  simpl. apply euler_zero_population.
Qed.

(** * The dashboard's model runners *)

Section runners.
Context {param cell : Type} `{!Arith param cell}.
Implicit Types (w : world param cell) (params : gmap string (pyval param)).

(** Case analysis on the keys read one after the other. *)
Ltac first_missing_cases :=
  cbn [list_find fmap option_fmap option_map];
  repeat (let Hk := fresh "Hk" in
          case_decide as Hk; [rewrite Hk; simpl; by intros [= <-]|];
          match type of Hk with
          | ?m !! ?k ≠ None => destruct (m !! k) eqn:?; [clear Hk|done]
          end; simpl);
  try done.

Lemma sir_model_py_missing params key :
  first_missing sir_keys params = Some key → sir_model_py params = Throw (KeyError key).
Proof.
  unfold first_missing, sir_keys, sir_model_py, dict_get. first_missing_cases.
Qed.

Lemma run_sir_model_r_missing w params key :
  named_temporary_file w = None →
  first_missing sir_keys params = Some key →
  run_sir_model_r w params = Throw (KeyError key).
Proof.
  intros Htmp. unfold first_missing, sir_keys, run_sir_model_r, dict_get.
  rewrite Htmp. first_missing_cases.
Qed.

Lemma simulate_intervention_py_missing params key :
  first_missing intervention_keys params = Some key →
  simulate_intervention_py params = Throw (KeyError key).
Proof.
  unfold first_missing, intervention_keys, simulate_intervention_py, dict_get.
  first_missing_cases.
Qed.

Lemma run_intervention_model_r_missing w params key :
  named_temporary_file w = None →
  first_missing intervention_keys params = Some key →
  run_intervention_model_r w params = Throw (KeyError key).
Proof.
  intros Htmp.
  unfold first_missing, intervention_keys, run_intervention_model_r, dict_get.
  rewrite Htmp. first_missing_cases.
Qed.

(** What a runner does once the probe for R has answered. *)
Lemma run_sir_model_cases w params b :
  is_r_available w = Return b →
  run_sir_model w params
  = if negb b && PYTHON_MODEL_AVAILABLE w then ([st_info], sir_model_py params)
    else match run_sir_model_r w params with
         | Return df => ([], Return df)
         | Throw e =>
             if PYTHON_MODEL_AVAILABLE w then ([st_warning e], sir_model_py params)
             else ([st_error e], Throw e)
         end.
Proof. intros Hr. unfold run_sir_model. by rewrite Hr. Qed.

Lemma run_intervention_model_cases w params b :
  is_r_available w = Return b →
  run_intervention_model w params
  = if negb b && PYTHON_MODEL_AVAILABLE w
    then ([st_info], simulate_intervention_py params)
    else match run_intervention_model_r w params with
         | Return df => ([], Return df)
         | Throw e =>
             if PYTHON_MODEL_AVAILABLE w
             then ([st_warning e], simulate_intervention_py params)
             else ([st_error e], Throw e)
         end.
Proof. intros Hr. unfold run_intervention_model. by rewrite Hr. Qed.

Lemma run_sir_model_r_missing_throws w params key :
  first_missing sir_keys params = Some key →
  ∃ e, run_sir_model_r w params = Throw e
       ∧ (named_temporary_file w = None → e = KeyError key).
Proof.
  intros Hkey. destruct (named_temporary_file w) as [e|] eqn:Htmp.
  - exists e. unfold run_sir_model_r. by rewrite Htmp.
  - exists (KeyError key). split; [by apply run_sir_model_r_missing|done].
Qed.

Lemma run_intervention_model_r_missing_throws w params key :
  first_missing intervention_keys params = Some key →
  ∃ e, run_intervention_model_r w params = Throw e
       ∧ (named_temporary_file w = None → e = KeyError key).
Proof.
  intros Hkey. destruct (named_temporary_file w) as [e|] eqn:Htmp.
  - exists e. unfold run_intervention_model_r. by rewrite Htmp.
  - exists (KeyError key). split; [by apply run_intervention_model_r_missing|done].
Qed.
End runners.

(** * The setup script *)

Lemma subprocess_run_checked_Return p code :
  subprocess_run true p = Return code ↔ p = Exited 0 ∧ code = 0.
Proof.
  destruct p as [c|e]; simpl; [|by split; [|intros [? _]]].
  destruct (Z.eqb_spec c 0) as [->|Hc]; simpl.
  - split; [by intros [= <-]|by intros [_ ->]].
  - split; [done|]. intros [[= ->] _]. done.
Qed.

(** What the check for R answers. *)
Lemma check_r_installation_result m :
  (check_r_installation m).2 = Return true ↔ rscript_probe m = Exited 0.
Proof.
  unfold check_r_installation, run_checked.
  destruct (rscript_probe m) as [c|e]; simpl.
  - destruct (Z.eqb_spec c 0) as [->|Hc]; simpl; [done|].
    split; [done|]. by intros [= ->].
  - split; [|done]. by destruct (is_subprocess_error e || is_file_not_found e).
Qed.

(** An installation step starts its one process; it returns whether the
    process exited with 0, and raises only what [propagates]. *)
Lemma install_r_packages_cases m :
  started (install_r_packages m).1 = [["Rscript"; "install_packages.R"]]
  ∧ (install_r_packages m).2
    = match rscript_install m with
      | Exited code => Return (code =? 0)
      | NotStarted e => if is_subprocess_error e then Return false else Throw e
      end.
Proof.
  unfold install_r_packages, run_checked.
  destruct (rscript_install m) as [c|e]; simpl.
  - by destruct (Z.eqb_spec c 0).
  - by destruct (is_subprocess_error e).
Qed.

Lemma install_python_packages_cases m :
  started (install_python_packages m).1
  = [[executable m; "-m"; "pip"; "install"; "-r"; "requirements.txt"]]
  ∧ (install_python_packages m).2
    = match pip_install m with
      | Exited code => Return (code =? 0)
      | NotStarted e => if is_subprocess_error e then Return false else Throw e
      end.
Proof.
  unfold install_python_packages, run_checked.
  destruct (pip_install m) as [c|e]; simpl.
  - by destruct (Z.eqb_spec c 0).
  - by destruct (is_subprocess_error e).
Qed.

Lemma check_r_installation_started m :
  started (check_r_installation m).1 = [["Rscript"; "--version"]].
Proof.
  unfold check_r_installation, run_checked.
  destruct (rscript_probe m) as [c|e]; simpl.
  - by destruct (Z.eqb_spec c 0).
  - by destruct (is_subprocess_error e || is_file_not_found e).
Qed.

Lemma check_python_version_cases m :
  started (check_python_version m).1 = []
  ∧ (check_python_version m).2 = Return (negb (version_too_old m)).
Proof. unfold check_python_version. by destruct (version_too_old m). Qed.

Lemma started_app l1 l2 : started (l1 ++ l2) = started l1 ++ started l2.
Proof. apply omap_app. Qed.

(** Sequencing two steps of the script. *)
Lemma script_bind_fst {A B} (m : script A) (f : A → script B) a :
  m.2 = Return a → (m ≫= f) = (m.1 ++ (f a).1, (f a).2).
Proof.
  destruct m as [log r]; simpl. intros ->. unfold mbind, script_bind.
  by destruct (f a).
Qed.

Lemma script_bind_throw {A B} (m : script A) (f : A → script B) e :
  m.2 = Throw e → (m ≫= f) = (m.1, Throw e).
Proof. destruct m as [log r]; simpl. by intros ->. Qed.

Ltac setup_cases m :=
  unfold main, check_python_version, check_r_installation, install_r_packages,
    install_python_packages, run_checked, propagates;
  destruct (version_too_old m); simpl;
  [|destruct (rscript_probe m) as [[| |]|[]]; simpl;
    [destruct (rscript_install m) as [[| |]|[]]; simpl;
     destruct (pip_install m) as [[| |]|[]]; simpl|..]].


(** * Sample runs *)

(** The default scenario, three records, in exact arithmetic. *)
Example sir_model_three_records :
  ∃ df, sir_model (Q2Qc 1000) (Q2Qc 1) (Q2Qc 0) (Q2Qc 0.3) (Q2Qc 0.1) 3 = Ok df
    ∧ time df = [1; 2; 3]
    ∧ susceptible df = [Fin (Q2Qc 999); Fin (Q2Qc 998.7003); Fin (Q2Qc 998.340857775027)]
    ∧ infectious df = [Fin (Q2Qc 1); Fin (Q2Qc 1.1997); Fin (Q2Qc 1.439172224973)]
    ∧ recovered df = [Fin (Q2Qc 0); Fin (Q2Qc 0.1); Fin (Q2Qc 0.21997)].
Proof.
  eexists. split; [vm_compute; reflexivity|].
  repeat split; apply (bool_decide_eq_true_1 _); vm_compute; reflexivity.
Qed.

(** The same run in binary64: the cells the source prints. *)
Example sir_model_three_records_binary64 :
  sir_model 1000%float 1%float 0%float 0.3%float 0.1%float 3
  = Ok (mkDataFrame [1; 2; 3]
          [999%float; 998.70029999999997%float; 998.34085777502696%float]
          [1%float; 1.1997%float; 1.4391722249729999%float]
          [0%float; 0.10000000000000001%float; 0.21997%float]).
Proof. vm_compute. reflexivity. Qed.

(** The intervention changes the rate from step 1 on. *)
Example simulate_intervention_three_records :
  ∃ df, simulate_intervention (Q2Qc 1000) (Q2Qc 1) (Q2Qc 0) (Q2Qc 0.3) (Q2Qc 0) 1
          (Q2Qc 0.1) 3 = Ok df
    ∧ time df = [1; 2; 3]
    ∧ susceptible df = [Fin (Q2Qc 999); Fin (Q2Qc 998.7003); Fin (Q2Qc 998.7003)]
    ∧ infectious df = [Fin (Q2Qc 1); Fin (Q2Qc 1.1997); Fin (Q2Qc 1.07973)]
    ∧ recovered df = [Fin (Q2Qc 0); Fin (Q2Qc 0.1); Fin (Q2Qc 0.21997)].
Proof.
  eexists. split; [vm_compute; reflexivity|].
  repeat split; apply (bool_decide_eq_true_1 _); vm_compute; reflexivity.
Qed.

Example simulate_intervention_three_records_binary64 :
  simulate_intervention 1000%float 1%float 0%float 0.3%float 0%float 1 0.1%float 3
  = Ok (mkDataFrame [1; 2; 3]
          [999%float; 998.70029999999997%float; 998.70029999999997%float]
          [1%float; 1.1997%float; 1.0797300000000001%float]
          [0%float; 0.10000000000000001%float; 0.21997%float]).
Proof. vm_compute. reflexivity. Qed.

(** A zero population: the division of the first step is not finite. *)
Example sir_model_zero_population :
  ∃ df, sir_model (Q2Qc 0) (Q2Qc 0) (Q2Qc 0) (Q2Qc 0.3) (Q2Qc 0.1) 2 = Ok df
    ∧ susceptible df = [Fin (Q2Qc 0); NonFinite]
    ∧ infectious df = [Fin (Q2Qc 0); NonFinite]
    ∧ recovered df = [Fin (Q2Qc 0); Fin (Q2Qc 0)].
Proof.
  eexists. split; [vm_compute; reflexivity|].
  repeat split; apply (bool_decide_eq_true_1 _); vm_compute; reflexivity.
Qed.

Example sir_model_zero_population_binary64 :
  sir_model 0%float 0%float 0%float 0.3%float 0.1%float 2
  = Ok (mkDataFrame [1; 2] [0%float; nan] [0%float; nan] [0%float; 0%float]).
Proof. vm_compute. reflexivity. Qed.

Example sir_model_no_steps :
  sir_model (Q2Qc 1000) (Q2Qc 1) (Q2Qc 0) (Q2Qc 0.3) (Q2Qc 0.1) 0 = Raise IndexError
  ∧ sir_model (Q2Qc 1000) (Q2Qc 1) (Q2Qc 0) (Q2Qc 0.3) (Q2Qc 0.1) (-1) = Raise ValueError.
Proof. split; reflexivity. Qed.

(** In exact arithmetic a zero population breaks conservation: the
    infection term of the first step is [0 / 0]. *)
Example zero_population_not_conserved :
  ¬ (∃ df, sir_model (Q2Qc 0) (Q2Qc 0) (Q2Qc 0) (Q2Qc 0.3) (Q2Qc 0.1) 2 = Ok df
           ∧ ∀ k : nat, Z.of_nat k < 2 → conserved (Q2Qc 0) df k).
Proof.
  intros (df & Hdf & Hall). vm_compute in Hdf. injection Hdf as <-.
  destruct (Hall 1%nat) as (s & i & r & Hs & Hi & Hr & Hsum); [lia|].
  simpl in Hs. injection Hs as <-. discriminate Hsum.
Qed.

(** ** The default parameter set in binary64

    [N = 1000], [I0 = 1], [R0 = 0], [beta = 0.3], [gamma = 0.1] and
    [timesteps = 160] (for the intervention: [beta_after = 0.15] at step 40),
    the defaults of the source, run in the arithmetic of the source. *)

(** The sum of the compartments of each of the 160 records is the population
    up to a relative error of [1e-6]. *)
Lemma default_scenario_conserved_binary64 :
  ∃ df, sir_model 1000%float 1%float 0%float 0.3%float 0.1%float 160 = Ok df
    ∧ ∀ k : nat, Z.of_nat k < 160 → conserved_within 1e-6%float 1000%float df k.
Proof.
  eexists. split; [vm_compute; reflexivity|]. intros k Hk.
  do 160 (destruct k as [|k];
          [eexists _, _, _; repeat (split; [reflexivity|]); vm_compute; reflexivity|]).
  lia.
Qed.

Lemma default_intervention_conserved_binary64 :
  ∃ df, simulate_intervention 1000%float 1%float 0%float 0.3%float 0.15%float 40
          0.1%float 160 = Ok df
    ∧ ∀ k : nat, Z.of_nat k < 160 → conserved_within 1e-6%float 1000%float df k.
Proof.
  eexists. split; [vm_compute; reflexivity|]. intros k Hk.
  do 160 (destruct k as [|k];
          [eexists _, _, _; repeat (split; [reflexivity|]); vm_compute; reflexivity|]).
  lia.
Qed.

(** The recovered column rises, or stays, at each of the 159 steps. *)
Lemma default_scenario_recovered_rises_binary64 :
  ∃ df, sir_model 1000%float 1%float 0%float 0.3%float 0.1%float 160 = Ok df
    ∧ recovered_non_decreasing df.
Proof.
  eexists. split; [vm_compute; reflexivity|]. intros k r r' Hr Hr'.
  do 159 (destruct k as [|k];
          [injection Hr as <-; injection Hr' as <-; vm_compute; reflexivity|]).
  destruct k; discriminate Hr'.
Qed.

(** The three compartments of each of the 160 records lie in [[0, N]]. *)
Lemma default_scenario_bounded_binary64 :
  ∃ df, sir_model 1000%float 1%float 0%float 0.3%float 0.1%float 160 = Ok df
    ∧ ∀ k : nat, Z.of_nat k < 160 → bounded_binary64 1000%float df k.
Proof.
  eexists. split; [vm_compute; reflexivity|]. intros k Hk.
  do 160 (destruct k as [|k];
          [eexists _, _, _; repeat (split; [reflexivity|]);
           repeat split; vm_compute; reflexivity|]).
  lia.
Qed.

(** * The properties of the specification *)

(** C1 (as amended): in exact arithmetic, for every parameter set with a
    non-zero population and [timesteps >= 1], both [sir_model] and
    [simulate_intervention] return a series, and at every index
    [0..timesteps-1] of it [susceptible + infectious + recovered] equals the
    population [N] exactly.  In the binary64 arithmetic of the source, for
    the default parameter set, the sum is [N] within a relative tolerance
    of [1e-6] at every index, for both simulators. *)
Theorem conservation N I0 R0 beta beta_before beta_after intervention_time gamma timesteps :
  N ≠ 0%Qc → 1 ≤ timesteps →
  ((∃ df, sir_model N I0 R0 beta gamma timesteps = Ok df
          ∧ ∀ k : nat, Z.of_nat k < timesteps → conserved N df k)
   ∧ (∃ df, simulate_intervention N I0 R0 beta_before beta_after intervention_time
              gamma timesteps = Ok df
          ∧ ∀ k : nat, Z.of_nat k < timesteps → conserved N df k))
  ∧ ((∃ df, sir_model 1000%float 1%float 0%float 0.3%float 0.1%float 160 = Ok df
          ∧ ∀ k : nat, Z.of_nat k < 160 → conserved_within 1e-6%float 1000%float df k)
     ∧ (∃ df, simulate_intervention 1000%float 1%float 0%float 0.3%float 0.15%float 40
                0.1%float 160 = Ok df
          ∧ ∀ k : nat, Z.of_nat k < 160 → conserved_within 1e-6%float 1000%float df k)).
Proof.
  intros HN Hts.
  split; [|split; [apply default_scenario_conserved_binary64
                  |apply default_intervention_conserved_binary64]].
  split.
  - destruct (sir_model_frame N I0 R0 beta gamma timesteps Hts) as (df & Hdf & Hfr).
    exists df. split; [done|]. intros k Hk.
    eapply frame_of_conserved; [done|exact Hfr|lia].
  - destruct (simulate_intervention_frame N I0 R0 beta_before beta_after
                intervention_time gamma timesteps Hts) as (df & Hdf & Hfr).
    exists df. split; [done|]. intros k Hk.
    eapply frame_of_conserved; [done|exact Hfr|lia].
Qed.

Lemma conservation_witness :
  ((∃ df, sir_model (Q2Qc 1000) (Q2Qc 1) (Q2Qc 0) (Q2Qc 0.3) (Q2Qc 0.1) 160 = Ok df
          ∧ ∀ k : nat, Z.of_nat k < 160 → conserved (Q2Qc 1000) df k)
   ∧ (∃ df, simulate_intervention (Q2Qc 1000) (Q2Qc 1) (Q2Qc 0) (Q2Qc 0.3) (Q2Qc 0.15)
              40 (Q2Qc 0.1) 160 = Ok df
          ∧ ∀ k : nat, Z.of_nat k < 160 → conserved (Q2Qc 1000) df k))
  ∧ ((∃ df, sir_model 1000%float 1%float 0%float 0.3%float 0.1%float 160 = Ok df
          ∧ ∀ k : nat, Z.of_nat k < 160 → conserved_within 1e-6%float 1000%float df k)
     ∧ (∃ df, simulate_intervention 1000%float 1%float 0%float 0.3%float 0.15%float 40
                0.1%float 160 = Ok df
          ∧ ∀ k : nat, Z.of_nat k < 160 → conserved_within 1e-6%float 1000%float df k)).
Proof.
  apply (conservation (Q2Qc 1000) (Q2Qc 1) (Q2Qc 0) (Q2Qc 0.3) (Q2Qc 0.3) (Q2Qc 0.15)
           40 (Q2Qc 0.1) 160); [discriminate|lia].
Defined.

(** C1 (as stated) fails in the arithmetic of the source: with [N = 1000],
    [I0 = 1], [R0 = 0], [beta = 1e20] and [gamma = 0.1] the infection term of
    step 0 is [9.99e19]; it absorbs [S[0]] and [I[0]] when it is subtracted
    and added, and record 1 holds [-9.99e19], [9.99e19] and [0.1], which sum
    to [0.1], not to [1000] within a relative tolerance of [1e-6]. *)
Lemma conservation_fails_in_binary64 :
  ¬ (∃ df, sir_model 1000%float 1%float 0%float 1e20%float 0.1%float 2 = Ok df
           ∧ ∀ k : nat, Z.of_nat k < 2 → conserved_within 1e-6%float 1000%float df k).
Proof.
  intros (df & Hdf & Hall). vm_compute in Hdf. injection Hdf as <-.
  destruct (Hall 1%nat) as (s & i & r & Hs & Hi & Hr & Hsum); [lia|].
  simpl in Hs, Hi, Hr. injection Hs as <-. injection Hi as <-. injection Hr as <-.
  vm_compute in Hsum. discriminate Hsum.
Qed.

(** C2: with [beta_before] equal to [beta_after], [simulate_intervention]
    returns what [sir_model] returns at that rate, whatever the other
    parameters are (the same series, or the same exception), in any
    arithmetic. *)
Theorem no_intervention_equivalence {param cell : Type} `{!Arith param cell}
    (N I0 R0 beta : param) (intervention_time : Z) (gamma : param) (timesteps : Z) :
  simulate_intervention N I0 R0 beta beta intervention_time gamma timesteps
  = sir_model N I0 R0 beta gamma timesteps.
Proof.
  rewrite simulate_intervention_simulate_with, sir_model_simulate_with.
  apply simulate_with_ext. intros t _. unfold current_beta.
  by destruct (t <? intervention_time).
Qed.

(** C3: an intervention at or before step 0 gives the plain run at
    [beta_after]; an intervention at or after step [timesteps - 1] gives the
    plain run at [beta_before]. *)
Theorem boundary_intervention {param cell : Type} `{!Arith param cell}
    (N I0 R0 beta_before beta_after : param) (intervention_time : Z) (gamma : param)
    (timesteps : Z) :
  (intervention_time ≤ 0 →
     simulate_intervention N I0 R0 beta_before beta_after intervention_time gamma timesteps
     = sir_model N I0 R0 beta_after gamma timesteps)
  ∧ (timesteps - 1 ≤ intervention_time →
     simulate_intervention N I0 R0 beta_before beta_after intervention_time gamma timesteps
     = sir_model N I0 R0 beta_before gamma timesteps).
Proof.
  rewrite simulate_intervention_simulate_with, !sir_model_simulate_with.
  split; intros Hit; apply simulate_with_ext; intros t Ht; unfold current_beta.
  - destruct (Z.ltb_spec t intervention_time); [lia|done].
  - destruct (Z.ltb_spec t intervention_time); [done|lia].
Qed.

Lemma boundary_intervention_witness :
  simulate_intervention (Q2Qc 1000) (Q2Qc 1) (Q2Qc 0) (Q2Qc 0.3) (Q2Qc 0.15) 0
    (Q2Qc 0.1) 160
  = sir_model (Q2Qc 1000) (Q2Qc 1) (Q2Qc 0) (Q2Qc 0.15) (Q2Qc 0.1) 160
  ∧ simulate_intervention (Q2Qc 1000) (Q2Qc 1) (Q2Qc 0) (Q2Qc 0.3) (Q2Qc 0.15) 159
      (Q2Qc 0.1) 160
    = sir_model (Q2Qc 1000) (Q2Qc 1) (Q2Qc 0) (Q2Qc 0.3) (Q2Qc 0.1) 160.
Proof.
  split.
  - apply (proj1 (boundary_intervention (Q2Qc 1000) (Q2Qc 1) (Q2Qc 0) (Q2Qc 0.3)
                    (Q2Qc 0.15) 0 (Q2Qc 0.1) 160)). lia.
  - apply (proj2 (boundary_intervention (Q2Qc 1000) (Q2Qc 1) (Q2Qc 0) (Q2Qc 0.3)
                    (Q2Qc 0.15) 159 (Q2Qc 0.1) 160)). lia.
Defined.

(** C4: for [timesteps >= 1] the first record of the series returned by
    [sir_model], and by [simulate_intervention], has
    [susceptible = N - I0 - R0], [infectious = I0] and [recovered = R0]. *)
Theorem initial_record {param cell : Type} `{!Arith param cell}
    (N I0 R0 beta beta_before beta_after : param) (intervention_time : Z)
    (gamma : param) (timesteps : Z) :
  1 ≤ timesteps →
  (∃ df, sir_model N I0 R0 beta gamma timesteps = Ok df ∧ starts_at N I0 R0 df)
  ∧ (∃ df, simulate_intervention N I0 R0 beta_before beta_after intervention_time
             gamma timesteps = Ok df ∧ starts_at N I0 R0 df).
Proof.
  intros Hts.
  destruct (Z.to_nat timesteps) as [|n] eqn:Hn; [lia|]. split.
  - destruct (sir_model_frame N I0 R0 beta gamma timesteps Hts) as (df & Hdf & Hfr).
    rewrite Hn in Hfr. exists df. split; [done|]. by eapply frame_of_starts_at.
  - destruct (simulate_intervention_frame N I0 R0 beta_before beta_after
                intervention_time gamma timesteps Hts) as (df & Hdf & Hfr).
    rewrite Hn in Hfr. exists df. split; [done|]. by eapply frame_of_starts_at.
Qed.

Lemma initial_record_witness :
  (∃ df, sir_model (Q2Qc 1000) (Q2Qc 1) (Q2Qc 0) (Q2Qc 0.3) (Q2Qc 0.1) 160 = Ok df
         ∧ starts_at (Q2Qc 1000) (Q2Qc 1) (Q2Qc 0) df)
  ∧ (∃ df, simulate_intervention (Q2Qc 1000) (Q2Qc 1) (Q2Qc 0) (Q2Qc 0.3) (Q2Qc 0.15)
             40 (Q2Qc 0.1) 160 = Ok df
         ∧ starts_at (Q2Qc 1000) (Q2Qc 1) (Q2Qc 0) df).
Proof. apply initial_record; lia. Defined.

(** C5: for [timesteps >= 1] the series returned by [sir_model], and by
    [simulate_intervention], has exactly [timesteps] records, and the time
    label of the record at internal index [k] is [k + 1]: the labels are
    [1, 2, ..., timesteps] in that order. *)
Theorem time_labels {param cell : Type} `{!Arith param cell}
    (N I0 R0 beta beta_before beta_after : param) (intervention_time : Z)
    (gamma : param) (timesteps : Z) :
  1 ≤ timesteps →
  (∃ df, sir_model N I0 R0 beta gamma timesteps = Ok df ∧ labelled timesteps df)
  ∧ (∃ df, simulate_intervention N I0 R0 beta_before beta_after intervention_time
             gamma timesteps = Ok df ∧ labelled timesteps df).
Proof.
  intros Hts. split.
  - destruct (sir_model_frame N I0 R0 beta gamma timesteps Hts) as (df & Hdf & Hfr).
    exists df. split; [done|]. by eapply frame_of_labelled.
  - destruct (simulate_intervention_frame N I0 R0 beta_before beta_after
                intervention_time gamma timesteps Hts) as (df & Hdf & Hfr).
    exists df. split; [done|]. by eapply frame_of_labelled.
Qed.

Lemma time_labels_witness :
  (∃ df, sir_model (Q2Qc 1000) (Q2Qc 1) (Q2Qc 0) (Q2Qc 0.3) (Q2Qc 0.1) 160 = Ok df
         ∧ labelled 160 df)
  ∧ (∃ df, simulate_intervention (Q2Qc 1000) (Q2Qc 1) (Q2Qc 0) (Q2Qc 0.3) (Q2Qc 0.15)
             40 (Q2Qc 0.1) 160 = Ok df
         ∧ labelled 160 df).
Proof. apply time_labels; lia. Defined.

(** C6 (as amended): in exact arithmetic, in the series returned by
    [sir_model], whenever [gamma] is non-negative and the infectious value of
    a record is (finite and) non-negative, the recovered value of the next
    record is at least the recovered value of that record.  In the binary64
    arithmetic of the source, for the default parameter set, the recovered
    value does not fall at any of the 159 steps. *)
Theorem recovered_monotone N I0 R0 beta gamma timesteps :
  (0 <= gamma)%Qc → 1 ≤ timesteps →
  (∃ df, sir_model N I0 R0 beta gamma timesteps = Ok df
     ∧ ∀ (k : nat) (i r r' : num),
         Z.of_nat k + 1 < timesteps →
         infectious df !! k = Some i →
         recovered df !! k = Some r →
         recovered df !! S k = Some r' →
         Num.le (Fin 0%Qc) i → Num.le r r')
  ∧ (∃ df, sir_model 1000%float 1%float 0%float 0.3%float 0.1%float 160 = Ok df
       ∧ recovered_non_decreasing df).
Proof.
  intros Hg Hts. split; [|apply default_scenario_recovered_rises_binary64].
  destruct (sir_model_frame N I0 R0 beta gamma timesteps Hts) as (df & Hdf & Hfr).
  exists df. split; [done|]. intros k i r r' Hk Hi Hr Hr' Hi0.
  destruct (frame_of_lookup _ _ _ k Hfr) as (_ & _ & HI & HR); [lia|].
  destruct (frame_of_lookup _ _ _ (S k) Hfr) as (_ & _ & _ & HR'); [lia|].
  rewrite Hi in HI. rewrite Hr in HR. rewrite Hr' in HR'. simplify_eq.
  set (st := traj N (λ _, beta) gamma (init_state N I0 R0) k) in *.
  destruct (st_I st) as [i|] eqn:HI; [|done].
  destruct (traj_rec_finite N (λ _, beta) gamma I0 R0 k i HI) as [r Hr0].
  fold st in Hr0.
  change (traj N (λ _, beta) gamma (init_state N I0 R0) (S k))
    with (euler N beta gamma st).
  rewrite (euler_recovered _ _ _ _ i r HI Hr0), Hr0. simpl.
  simpl in Hi0.
  assert (0 <= gamma * i)%Qc as Hy by (by apply Qcmult_nonneg_nonneg).
  revert Hy. generalize (gamma * i)%Qc. intros y Hy. qc_lra.
Qed.

Lemma recovered_monotone_witness :
  (∃ df, sir_model (Q2Qc 1000) (Q2Qc 1) (Q2Qc 0) (Q2Qc 0.3) (Q2Qc 0.1) 160 = Ok df
     ∧ ∀ (k : nat) (i r r' : num),
         Z.of_nat k + 1 < 160 →
         infectious df !! k = Some i →
         recovered df !! k = Some r →
         recovered df !! S k = Some r' →
         Num.le (Fin 0%Qc) i → Num.le r r')
  ∧ (∃ df, sir_model 1000%float 1%float 0%float 0.3%float 0.1%float 160 = Ok df
       ∧ recovered_non_decreasing df).
Proof. apply recovered_monotone; [by vm_compute|lia]. Defined.

(** C6 (as stated) fails in its closing clause: the recovered column does
    not rise at every step for every valid parameter set.  With [N = 1000],
    [I0 = 1], [R0 = 0], [beta = 0] and [gamma = 2] the infectious column is
    [1, -1, 1] and the recovered column [0, 2, 0]; every cell of this run is
    an integer, and the source computes it without rounding. *)
Lemma recovered_falls_for_large_gamma :
  ¬ (∃ df, sir_model 1000%float 1%float 0%float 0%float 2%float 3 = Ok df
           ∧ recovered_non_decreasing df).
Proof.
  intros (df & Hdf & Hall). vm_compute in Hdf. injection Hdf as <-.
  specialize (Hall 1%nat 2%float 0%float eq_refl eq_refl).
  vm_compute in Hall. discriminate Hall.
Qed.


(** C8: for [timesteps < 1] both simulators fail and return no series:
    [np.zeros] raises [ValueError] on a negative length, and the store to
    index 0 of an empty array raises [IndexError]. *)
Theorem nonpositive_timesteps_raise {param cell : Type} `{!Arith param cell}
    (N I0 R0 beta beta_before beta_after : param) (intervention_time : Z)
    (gamma : param) (timesteps : Z) :
  timesteps < 1 →
  sir_model N I0 R0 beta gamma timesteps
  = Raise (if timesteps <? 0 then ValueError else IndexError)
  ∧ simulate_intervention N I0 R0 beta_before beta_after intervention_time gamma timesteps
    = Raise (if timesteps <? 0 then ValueError else IndexError).
Proof.
  intros Hts.
  rewrite sir_model_simulate_with, simulate_intervention_simulate_with.
  split; by apply simulate_with_raise.
Qed.

Lemma nonpositive_timesteps_raise_witness :
  sir_model (Q2Qc 1000) (Q2Qc 1) (Q2Qc 0) (Q2Qc 0.3) (Q2Qc 0.1) 0 = Raise IndexError
  ∧ simulate_intervention (Q2Qc 1000) (Q2Qc 1) (Q2Qc 0) (Q2Qc 0.3) (Q2Qc 0.15) 40
      (Q2Qc 0.1) 0 = Raise IndexError.
Proof.
  apply (nonpositive_timesteps_raise (Q2Qc 1000) (Q2Qc 1) (Q2Qc 0) (Q2Qc 0.3)
           (Q2Qc 0.3) (Q2Qc 0.15) 40 (Q2Qc 0.1) 0).
  lia.
Defined.

(** C9: for a non-negative [intervention_time], the series returned by
    [simulate_intervention] and the series returned by [sir_model] at
    [beta_before] have the same record at every internal index up to
    [min(intervention_time, timesteps - 1)]. *)
Theorem pre_intervention_agreement {param cell : Type} `{!Arith param cell}
    (N I0 R0 beta_before beta_after : param) (intervention_time : Z)
    (gamma : param) (timesteps : Z) (k : nat) :
  0 ≤ intervention_time →
  Z.of_nat k ≤ Z.min intervention_time (timesteps - 1) →
  ∃ df df',
    simulate_intervention N I0 R0 beta_before beta_after intervention_time gamma timesteps
    = Ok df
    ∧ sir_model N I0 R0 beta_before gamma timesteps = Ok df'
    ∧ is_Some (record_at df k)
    ∧ record_at df k = record_at df' k.
Proof.
  intros Hit Hk.
  destruct (simulate_intervention_frame N I0 R0 beta_before beta_after
              intervention_time gamma timesteps) as (df & Hdf & Hfr); [lia|].
  destruct (sir_model_frame N I0 R0 beta_before gamma timesteps)
    as (df' & Hdf' & Hfr'); [lia|].
  exists df, df'. do 2 (split; [done|]).
  destruct Hfr as (_ & _ & _ & _ & Hrec). destruct Hfr' as (_ & _ & _ & _ & Hrec').
  rewrite Hrec, Hrec' by lia. split; [done|].
  do 2 f_equal. apply traj_ext. intros t Ht. unfold current_beta.
  destruct (Z.ltb_spec t intervention_time); [done|lia].
Qed.

Lemma pre_intervention_agreement_witness :
  ∃ df df',
    simulate_intervention (Q2Qc 1000) (Q2Qc 1) (Q2Qc 0) (Q2Qc 0.3) (Q2Qc 0.15) 40
      (Q2Qc 0.1) 160 = Ok df
    ∧ sir_model (Q2Qc 1000) (Q2Qc 1) (Q2Qc 0) (Q2Qc 0.3) (Q2Qc 0.1) 160 = Ok df'
    ∧ is_Some (record_at df 40)
    ∧ record_at df 40 = record_at df' 40.
Proof. apply pre_intervention_agreement; lia. Defined.

(** C10 (as amended): in exact arithmetic, for [N > 0], [0 <= I0],
    [0 <= R0], [I0 + R0 <= N] and [beta], [gamma] in [[0, 1]], every record
    of the series returned by [sir_model] has its three compartments finite,
    non-negative and at most [N].  In the binary64 arithmetic of the source,
    for the default parameter set, every compartment of every record is
    non-negative and at most [N]. *)
Theorem compartments_bounded N I0 R0 beta gamma timesteps :
  (0 < N)%Qc → (0 <= I0)%Qc → (0 <= R0)%Qc → (I0 + R0 <= N)%Qc →
  (0 <= beta)%Qc → (beta <= 1)%Qc → (0 <= gamma)%Qc → (gamma <= 1)%Qc →
  1 ≤ timesteps →
  (∃ df, sir_model N I0 R0 beta gamma timesteps = Ok df
     ∧ ∀ k : nat, Z.of_nat k < timesteps → bounded N df k)
  ∧ (∃ df, sir_model 1000%float 1%float 0%float 0.3%float 0.1%float 160 = Ok df
       ∧ ∀ k : nat, Z.of_nat k < 160 → bounded_binary64 1000%float df k).
Proof.
  intros HN HI0 HR0 HIR Hb0 Hb1 Hg0 Hg1 Hts.
  split; [|apply default_scenario_bounded_binary64].
  destruct (sir_model_frame N I0 R0 beta gamma timesteps Hts) as (df & Hdf & Hfr).
  exists df. split; [done|]. intros k Hk.
  destruct (frame_of_lookup _ _ _ k Hfr) as (_ & HS & HI & HR); [lia|].
  destruct (within_bounds N (traj N (λ _, beta) gamma (init_state N I0 R0) k))
    as (s & i & r & Hst & Hs & Hi & Hr); [by apply traj_within|].
  rewrite Hst in HS, HI, HR. by exists s, i, r.
Qed.

Lemma compartments_bounded_witness :
  (∃ df, sir_model (Q2Qc 1000) (Q2Qc 1) (Q2Qc 0) (Q2Qc 0.3) (Q2Qc 0.1) 160 = Ok df
     ∧ ∀ k : nat, Z.of_nat k < 160 → bounded (Q2Qc 1000) df k)
  ∧ (∃ df, sir_model 1000%float 1%float 0%float 0.3%float 0.1%float 160 = Ok df
       ∧ ∀ k : nat, Z.of_nat k < 160 → bounded_binary64 1000%float df k).
Proof. apply compartments_bounded; try (by vm_compute); lia. Defined.

(** C10 (as stated) fails in the arithmetic of the source: the rounding of
    the sums lets a compartment pass [N].  With [N = 200], [I0 = 100],
    [R0 = 100], [beta = 0.3] and [gamma = 0.25] the recovered value of the
    record at index 121 is [200.00000000000003]. *)
Lemma compartments_exceed_population_in_binary64 :
  ¬ (∃ df, sir_model 200%float 100%float 100%float 0.3%float 0.25%float 122 = Ok df
           ∧ ∀ k : nat, Z.of_nat k < 122 → bounded_binary64 200%float df k).
Proof.
  intros (df & Hdf & Hall). vm_compute in Hdf. injection Hdf as <-.
  destruct (Hall 121%nat) as (s & i & r & _ & _ & Hr & _ & _ & _ & Hle); [lia|].
  vm_compute in Hr. injection Hr as <-.
  vm_compute in Hle. discriminate Hle.
Qed.

(** * Further properties of the simulators *)

(** X1: With [timesteps = 1] the loop body never runs: whatever the parameters,
    a zero population included, the series is the single initial record,
    labelled 1. *)
Theorem single_record_series {param cell : Type} `{!Arith param cell}
    (N I0 R0 beta beta_before beta_after : param) (intervention_time : Z)
    (gamma : param) :
  sir_model N I0 R0 beta gamma 1
  = Ok (mkDataFrame [1] [to_cell (p_sub (p_sub N I0) R0)] [to_cell I0] [to_cell R0])
  ∧ simulate_intervention N I0 R0 beta_before beta_after intervention_time gamma 1
    = Ok (mkDataFrame [1] [to_cell (p_sub (p_sub N I0) R0)] [to_cell I0] [to_cell R0]).
Proof. split; reflexivity. Qed.

(** X2: With a zero population and at least two records, every record after the
    first has a non-finite susceptible and a non-finite infectious cell, and
    every record after the second a non-finite recovered cell; no exception
    is raised. *)
Theorem zero_population_series I0 R0 beta beta_before beta_after intervention_time
    gamma timesteps :
  2 ≤ timesteps →
  (∃ df, sir_model 0%Qc I0 R0 beta gamma timesteps = Ok df
     ∧ each_record df timesteps (λ k st,
         (1 ≤ k)%nat → st_S st = NonFinite ∧ st_I st = NonFinite
                       ∧ ((2 ≤ k)%nat → st_R st = NonFinite)))
  ∧ (∃ df, simulate_intervention 0%Qc I0 R0 beta_before beta_after intervention_time
             gamma timesteps = Ok df
     ∧ each_record df timesteps (λ k st,
         (1 ≤ k)%nat → st_S st = NonFinite ∧ st_I st = NonFinite
                       ∧ ((2 ≤ k)%nat → st_R st = NonFinite))).
Proof.
  intros Hts. rewrite sir_model_eq, simulate_intervention_eq.
  destruct (Z.ltb_spec timesteps 1); [lia|].
  split; eexists; (split; [reflexivity|]); apply each_record_frame_from;
    intros k _; apply traj_zero_population.
Qed.

Lemma zero_population_series_witness :
  (∃ df, sir_model 0%Qc (Q2Qc 1) (Q2Qc 0) (Q2Qc 0.3) (Q2Qc 0.1) 160 = Ok df
     ∧ each_record df 160 (λ k st,
         (1 ≤ k)%nat → st_S st = NonFinite ∧ st_I st = NonFinite
                       ∧ ((2 ≤ k)%nat → st_R st = NonFinite)))
  ∧ (∃ df, simulate_intervention 0%Qc (Q2Qc 1) (Q2Qc 0) (Q2Qc 0.3) (Q2Qc 0.15) 40
             (Q2Qc 0.1) 160 = Ok df
     ∧ each_record df 160 (λ k st,
         (1 ≤ k)%nat → st_S st = NonFinite ∧ st_I st = NonFinite
                       ∧ ((2 ≤ k)%nat → st_R st = NonFinite))).
Proof. apply zero_population_series. lia. Defined.

(** X12: A run of [n] records is the first [n] records of any longer run with
    the same parameters. *)
Theorem shorter_run_is_prefix {param cell : Type} `{!Arith param cell}
    (N I0 R0 beta beta_before beta_after : param) (intervention_time : Z)
    (gamma : param) (n m : Z) :
  1 ≤ n → n ≤ m →
  sir_model N I0 R0 beta gamma n
  = result_map (head_frame (Z.to_nat n)) (sir_model N I0 R0 beta gamma m)
  ∧ simulate_intervention N I0 R0 beta_before beta_after intervention_time gamma n
    = result_map (head_frame (Z.to_nat n))
        (simulate_intervention N I0 R0 beta_before beta_after intervention_time gamma m).
Proof.
  intros Hn Hm. rewrite !sir_model_eq, !simulate_intervention_eq.
  destruct (Z.ltb_spec n 1); [lia|]. destruct (Z.ltb_spec m 1); [lia|]. simpl.
  by rewrite !frame_from_head by lia.
Qed.

Lemma shorter_run_is_prefix_witness :
  sir_model (Q2Qc 1000) (Q2Qc 1) (Q2Qc 0) (Q2Qc 0.3) (Q2Qc 0.1) 50
  = result_map (head_frame (Z.to_nat 50))
      (sir_model (Q2Qc 1000) (Q2Qc 1) (Q2Qc 0) (Q2Qc 0.3) (Q2Qc 0.1) 160)
  ∧ simulate_intervention (Q2Qc 1000) (Q2Qc 1) (Q2Qc 0) (Q2Qc 0.3) (Q2Qc 0.15) 40
      (Q2Qc 0.1) 50
    = result_map (head_frame (Z.to_nat 50))
        (simulate_intervention (Q2Qc 1000) (Q2Qc 1) (Q2Qc 0) (Q2Qc 0.3) (Q2Qc 0.15) 40
           (Q2Qc 0.1) 160).
Proof. apply shorter_run_is_prefix; lia. Defined.

(** X27: In any arithmetic, each record after the first is computed from the
    record before it alone, by the update of the loop body at the rate of
    that step: [beta] for [sir_model]; [beta_before] at the steps before
    [intervention_time] and [beta_after] from then on for
    [simulate_intervention]. *)
Theorem consecutive_records_follow_update {param cell : Type} `{!Arith param cell}
    (N I0 R0 beta beta_before beta_after : param) (intervention_time : Z)
    (gamma : param) (timesteps : Z) :
  1 ≤ timesteps →
  (∃ df, sir_model N I0 R0 beta gamma timesteps = Ok df
     ∧ ∀ k : nat, Z.of_nat k + 1 < timesteps →
         ∃ st, record_at df k = Some (Z.of_nat k + 1, st)
           ∧ record_at df (S k) = Some (Z.of_nat k + 2, euler N beta gamma st))
  ∧ (∃ df, simulate_intervention N I0 R0 beta_before beta_after intervention_time
             gamma timesteps = Ok df
     ∧ ∀ k : nat, Z.of_nat k + 1 < timesteps →
         ∃ st, record_at df k = Some (Z.of_nat k + 1, st)
           ∧ record_at df (S k)
             = Some (Z.of_nat k + 2,
                     euler N (if Z.of_nat k <? intervention_time
                              then beta_before else beta_after) gamma st)).
Proof.
  intros Hts. split.
  - destruct (sir_model_frame N I0 R0 beta gamma timesteps Hts)
      as (df & Hdf & _ & _ & _ & _ & Hrec).
    exists df. split; [done|]. intros k Hk. eexists. split; [apply Hrec; lia|].
    rewrite Hrec by lia. simpl. do 2 f_equal. lia.
  - destruct (simulate_intervention_frame N I0 R0 beta_before beta_after
                intervention_time gamma timesteps Hts)
      as (df & Hdf & _ & _ & _ & _ & Hrec).
    exists df. split; [done|]. intros k Hk. eexists. split; [apply Hrec; lia|].
    rewrite Hrec by lia. simpl. do 2 f_equal. lia.
Qed.

Lemma consecutive_records_follow_update_witness :
  (∃ df, sir_model 1000%float 1%float 0%float 0.3%float 0.1%float 160 = Ok df
     ∧ ∀ k : nat, Z.of_nat k + 1 < 160 →
         ∃ st, record_at df k = Some (Z.of_nat k + 1, st)
           ∧ record_at df (S k)
             = Some (Z.of_nat k + 2, euler 1000%float 0.3%float 0.1%float st))
  ∧ (∃ df, simulate_intervention 1000%float 1%float 0%float 0.3%float 0.15%float 40
             0.1%float 160 = Ok df
     ∧ ∀ k : nat, Z.of_nat k + 1 < 160 →
         ∃ st, record_at df k = Some (Z.of_nat k + 1, st)
           ∧ record_at df (S k)
             = Some (Z.of_nat k + 2,
                     euler 1000%float (if Z.of_nat k <? 40 then 0.3%float
                                       else 0.15%float) 0.1%float st)).
Proof. apply consecutive_records_follow_update. lia. Defined.

(** * The dashboard's model runners: what a call returns *)

(** X18: When the Python simulators are importable, a runner raises only what
    the Python simulator raises on these parameters: a failure of the R
    script never reaches the caller.  (The probe for R is assumed to
    answer.) *)
Theorem python_fallback_hides_r_failure {param cell : Type} `{!Arith param cell}
    (w : world param cell) (params : gmap string (pyval param)) (b : bool)
    (e : exception) :
  PYTHON_MODEL_AVAILABLE w = true → is_r_available w = Return b →
  ((run_sir_model w params).2 = Throw e → sir_model_py params = Throw e)
  ∧ ((run_intervention_model w params).2 = Throw e →
     simulate_intervention_py params = Throw e).
Proof.
  intros Hpy Hr.
  rewrite (run_sir_model_cases w params b Hr),
    (run_intervention_model_cases w params b Hr), Hpy.
  split.
  - destruct (negb b); simpl; [done|]. by destruct (run_sir_model_r w params).
  - destruct (negb b); simpl; [done|]. by destruct (run_intervention_model_r w params).
Qed.

Lemma python_fallback_hides_r_failure_witness :
  (run_sir_model (world_with_failing_r : world Qc num) ∅).2
  = Throw (KeyError "population")
  ∧ sir_model_py (cell := num) (∅ : gmap string (pyval Qc))
    = Throw (KeyError "population")
  ∧ (run_intervention_model (world_with_failing_r : world Qc num) ∅).2
    = Throw (KeyError "population")
  ∧ simulate_intervention_py (cell := num) (∅ : gmap string (pyval Qc))
    = Throw (KeyError "population").
Proof.
  destruct (python_fallback_hides_r_failure (world_with_failing_r : world Qc num) ∅
              true (KeyError "population") eq_refl eq_refl) as [Hsir Hint].
  split; [reflexivity|]. split; [apply Hsir; reflexivity|].
  split; [reflexivity|apply Hint; reflexivity].
Defined.

(** X19: With the parameters the dashboard builds and [timesteps >= 1],
    [sir_model] returns a series, and the runner of the basic model returns,
    when the Python simulators are importable: the series of the R script,
    with no message, when R is available and its script succeeds; the series
    of [sir_model] with a warning that carries the failure when R is
    available and its script fails; the series of [sir_model] with the info
    message when R is not available. *)
Theorem run_sir_model_returns_series {param cell : Type} `{!Arith param cell}
    (w : world param cell) (b : bool) (population initial_infected initial_recovered : Z)
    (beta gamma : param) (timesteps : Z) :
  PYTHON_MODEL_AVAILABLE w = true → is_r_available w = Return b →
  1 ≤ timesteps →
  ∃ df,
    sir_model (of_int population) (of_int initial_infected) (of_int initial_recovered)
      beta gamma timesteps = Ok df
    ∧ run_sir_model w (basic_params population initial_infected initial_recovered
                         beta gamma timesteps)
      = if b then
          match run_sir_model_r w (basic_params population initial_infected
                                     initial_recovered beta gamma timesteps) with
          | Return df_r => ([], Return df_r)
          | Throw e => ([st_warning e], Return df)
          end
        else ([st_info], Return df).
Proof.
  intros Hpy Hr Hts.
  set (params := basic_params _ _ _ _ _ _).
  destruct (sir_model_frame (of_int population) (of_int initial_infected)
              (of_int initial_recovered) beta gamma timesteps Hts)
    as (df & Hdf & _).
  exists df. split; [done|].
  assert (sir_model_py params = Return df) as Hpydf.
  { unfold sir_model_py, params, basic_params, dict_get.
    repeat (rewrite lookup_insert_eq || rewrite lookup_insert_ne by done).
    simpl. by rewrite Hdf. }
  rewrite (run_sir_model_cases w params b Hr), Hpy. destruct b; simpl; [|by rewrite Hpydf].
  destruct (run_sir_model_r w params) as [df'|e']; [done|by rewrite Hpydf].
Qed.

Lemma run_sir_model_returns_series_witness :
  ∃ df,
    sir_model (of_int 1000) (of_int 1) (of_int 0) 0.3%float 0.1%float 160 = Ok df
    ∧ run_sir_model world_with_failing_r (basic_params 1000 1 0 0.3%float 0.1%float 160)
      = if true then
          match run_sir_model_r world_with_failing_r
                  (basic_params 1000 1 0 0.3%float 0.1%float 160) with
          | Return df_r => ([], Return df_r)
          | Throw e => ([st_warning e], Return df)
          end
        else ([st_info], Return df).
Proof.
  apply (run_sir_model_returns_series world_with_failing_r true); [reflexivity..|lia].
Defined.

(** X20: With the parameters the dashboard builds and [timesteps >= 1],
    [simulate_intervention] returns a series, and the runner of the
    intervention model returns, when the Python simulators are importable:
    the series of the R script, with no message, when R is available and its
    script succeeds; the series of [simulate_intervention] with a warning
    that carries the failure when R is available and its script fails; the
    series of [simulate_intervention] with the info message when R is not
    available. *)
Theorem run_intervention_model_returns_series {param cell : Type} `{!Arith param cell}
    (w : world param cell) (b : bool) (population initial_infected initial_recovered : Z)
    (beta beta_after : param) (intervention_time : Z) (gamma : param) (timesteps : Z) :
  PYTHON_MODEL_AVAILABLE w = true → is_r_available w = Return b →
  1 ≤ timesteps →
  ∃ df,
    simulate_intervention (of_int population) (of_int initial_infected)
      (of_int initial_recovered) beta beta_after intervention_time gamma timesteps
    = Ok df
    ∧ run_intervention_model w
        (intervention_params population initial_infected initial_recovered beta
           beta_after intervention_time gamma timesteps)
      = if b then
          match run_intervention_model_r w
                  (intervention_params population initial_infected initial_recovered
                     beta beta_after intervention_time gamma timesteps) with
          | Return df_r => ([], Return df_r)
          | Throw e => ([st_warning e], Return df)
          end
        else ([st_info], Return df).
Proof.
  intros Hpy Hr Hts.
  set (params := intervention_params _ _ _ _ _ _ _ _).
  destruct (simulate_intervention_frame (of_int population) (of_int initial_infected)
              (of_int initial_recovered) beta beta_after intervention_time gamma
              timesteps Hts)
    as (df & Hdf & _).
  exists df. split; [done|].
  assert (simulate_intervention_py params = Return df) as Hpydf.
  { unfold simulate_intervention_py, params, intervention_params, dict_get.
    repeat (rewrite lookup_insert_eq || rewrite lookup_insert_ne by done).
    simpl. by rewrite Hdf. }
  rewrite (run_intervention_model_cases w params b Hr), Hpy.
  destruct b; simpl; [|by rewrite Hpydf].
  destruct (run_intervention_model_r w params) as [df'|e']; [done|by rewrite Hpydf].
Qed.

Lemma run_intervention_model_returns_series_witness :
  ∃ df,
    simulate_intervention (of_int 1000) (of_int 1) (of_int 0) 0.3%float 0.15%float 40
      0.1%float 160 = Ok df
    ∧ run_intervention_model world_without_r
        (intervention_params 1000 1 0 0.3%float 0.15%float 40 0.1%float 160)
      = if false then
          match run_intervention_model_r world_without_r
                  (intervention_params 1000 1 0 0.3%float 0.15%float 40 0.1%float 160)
          with
          | Return df_r => ([], Return df_r)
          | Throw e => ([st_warning e], Return df)
          end
        else ([st_info], Return df).
Proof.
  apply (run_intervention_model_returns_series world_without_r false);
    [reflexivity..|lia].
Defined.

(** X21: A parameter dict that lacks a key makes a runner raise [KeyError] for
    the first key it lacks, in the order the runner reads the keys, on the R
    path as on the Python path (provided the Python simulators are
    importable or the temporary file can be created). *)
Theorem missing_key_raises_key_error {param cell : Type} `{!Arith param cell}
    (w : world param cell) (b : bool) (params : gmap string (pyval param))
    (key : string) (params' : gmap string (pyval param)) (key' : string) :
  is_r_available w = Return b →
  PYTHON_MODEL_AVAILABLE w = true ∨ named_temporary_file w = None →
  first_missing sir_keys params = Some key →
  first_missing intervention_keys params' = Some key' →
  (run_sir_model w params).2 = Throw (KeyError key)
  ∧ (run_intervention_model w params').2 = Throw (KeyError key').
Proof.
  intros Hr Hor Hkey Hkey'.
  rewrite (run_sir_model_cases w params b Hr),
    (run_intervention_model_cases w params' b Hr).
  split.
  - pose proof (sir_model_py_missing params key Hkey) as Hpy.
    destruct (run_sir_model_r_missing_throws w params key Hkey) as (e & -> & He).
    destruct (PYTHON_MODEL_AVAILABLE w); [by destruct (negb b)|].
    rewrite andb_false_r. simpl. destruct Hor as [?|Htmp]; [done|]. by rewrite He.
  - pose proof (simulate_intervention_py_missing params' key' Hkey') as Hpy.
    destruct (run_intervention_model_r_missing_throws w params' key' Hkey')
      as (e & -> & He).
    destruct (PYTHON_MODEL_AVAILABLE w); [by destruct (negb b)|].
    rewrite andb_false_r. simpl. destruct Hor as [?|Htmp]; [done|]. by rewrite He.
Qed.

Lemma missing_key_raises_key_error_witness :
  (run_sir_model (world_with_failing_r : world Qc num)
     (delete "gamma" (basic_params 1000 1 0 (Q2Qc 0.3) (Q2Qc 0.1) 160))).2
  = Throw (KeyError "gamma")
  ∧ (run_intervention_model (world_with_failing_r : world Qc num)
       (basic_params 1000 1 0 (Q2Qc 0.3) (Q2Qc 0.1) 160)).2
    = Throw (KeyError "beta_before").
Proof.
  apply (missing_key_raises_key_error (world_with_failing_r : world Qc num) true);
    [reflexivity|by left|reflexivity|reflexivity].
Defined.

(** * The comparison with and without intervention *)

(** X22: On the Python path, an intervention that keeps the rate
    ([beta_after = beta]) changes nothing: the dashboard's two runs, with and
    without intervention, end in the same way, with the same series or the
    same exception. *)
Theorem unchanged_rate_same_run {param cell : Type} `{!Arith param cell}
    (w : world param cell) (population initial_infected initial_recovered : Z)
    (beta : param) (intervention_time : Z) (gamma : param) (timesteps : Z) :
  PYTHON_MODEL_AVAILABLE w = true → is_r_available w = Return false →
  run_intervention_model w
    (intervention_params population initial_infected initial_recovered beta beta
       intervention_time gamma timesteps)
  = run_sir_model w
      (basic_params population initial_infected initial_recovered beta gamma timesteps).
Proof.
  intros Hpy Hr.
  rewrite (run_intervention_model_cases w _ false Hr),
    (run_sir_model_cases w _ false Hr), Hpy. simpl.
  unfold simulate_intervention_py, sir_model_py, intervention_params, basic_params,
    dict_get.
  repeat (rewrite lookup_insert_eq || rewrite lookup_insert_ne by done). simpl.
  rewrite simulate_intervention_simulate_with, sir_model_simulate_with.
  rewrite (simulate_with_ext _ _ _ (current_beta beta beta intervention_time) (λ _, beta))
    by (intros t _; unfold current_beta; by destruct (t <? intervention_time)).
  done.
Qed.

Lemma unchanged_rate_same_run_witness :
  run_intervention_model world_without_r
    (intervention_params 1000 1 0 0.3%float 0.3%float 40 0.1%float 160)
  = run_sir_model world_without_r (basic_params 1000 1 0 0.3%float 0.1%float 160).
Proof. apply (unchanged_rate_same_run world_without_r); reflexivity. Defined.

(** * The setup script: what a run does *)

(** X24: [main] returns [True] exactly when Python is at least 3.7 and
    [Rscript --version] exits with 0, provided both installation steps can
    start their process: the exit codes of the two installations do not
    matter. *)
Theorem main_returns_true_iff m :
  (main m).2 = Return true
  ↔ version_too_old m = false ∧ rscript_probe m = Exited 0
    ∧ propagates (rscript_install m) = false ∧ propagates (pip_install m) = false.
Proof.
  setup_cases m;
    (split; [intros Hret; by simplify_eq|intros (Hv & Hp & Hr & Hpip); by simplify_eq]).
Qed.

(** X25: [main] starts no process on a Python older than 3.7, starts nothing but
    the probe unless [Rscript --version] exits with 0, and then starts the
    two installations in order (the second unless the first raised). *)
Theorem main_started_processes m :
  started (main m).1
  = if version_too_old m then []
    else ["Rscript"; "--version"]
         :: match rscript_probe m with
            | Exited 0 =>
                ["Rscript"; "install_packages.R"]
                :: (if propagates (rscript_install m) then []
                    else [[executable m; "-m"; "pip"; "install"; "-r";
                           "requirements.txt"]])
            | _ => []
            end.
Proof. setup_cases m; reflexivity. Qed.

(** X26: On a machine with Python 3.7 or later and R, [main] ends with the
    "Setup Complete" lines and returns [True] even when both installations
    exit with an error. *)
Theorem setup_complete_despite_failed_installs m code code' :
  version_too_old m = false → rscript_probe m = Exited 0 →
  rscript_install m = Exited code → pip_install m = Exited code' →
  (main m).2 = Return true
  ∧ list.last (main m).1
    = Some (Print "You can now run the dashboard with: streamlit run dashboard.py")
  ∧ (code ≠ 0 → Print "Error: Failed to install R packages." ∈ (main m).1)
  ∧ (code' ≠ 0 → Print "Error: Failed to install Python packages." ∈ (main m).1).
Proof.
  intros Hv Hp Hr Hpip.
  unfold main, check_python_version, check_r_installation, install_r_packages,
    install_python_packages, run_checked.
  rewrite Hv, Hp, Hr, Hpip. simpl.
  destruct (Z.eqb_spec code 0) as [->|Hc]; destruct (Z.eqb_spec code' 0) as [->|Hc'];
    simpl; (split; [done|]); (split; [done|]); split; intros Hne; try done;
    rewrite !elem_of_cons; naive_solver.
Qed.

Lemma setup_complete_despite_failed_installs_witness :
  (main machine_with_failing_installs).2 = Return true
  ∧ list.last (main machine_with_failing_installs).1
    = Some (Print "You can now run the dashboard with: streamlit run dashboard.py")
  ∧ (1 ≠ 0 → Print "Error: Failed to install R packages."
               ∈ (main machine_with_failing_installs).1)
  ∧ (1 ≠ 0 → Print "Error: Failed to install Python packages."
               ∈ (main machine_with_failing_installs).1).
Proof.
  apply (setup_complete_despite_failed_installs machine_with_failing_installs 1 1);
    reflexivity.
Defined.

(** * Sample runs of the callers *)

(** Without R the dashboard shows the info message and runs [sir_model]. *)
Example run_sir_model_without_r :
  ∃ df, run_sir_model world_without_r (basic_params 1000 1 0 (Q2Qc 0.3) (Q2Qc 0.1) 2)
        = ([st_info], Return df)
    ∧ sir_model (Q2Qc 1000) (Q2Qc 1) (Q2Qc 0) (Q2Qc 0.3) (Q2Qc 0.1) 2 = Ok df.
Proof. eexists. split; vm_compute; reflexivity. Qed.

(** With a failing R script the dashboard warns and falls back. *)
Example run_sir_model_with_failing_r :
  ∃ df, run_sir_model world_with_failing_r
          (basic_params 1000 1 0 (Q2Qc 0.3) (Q2Qc 0.1) 2)
        = ([st_warning (CalledProcessError 1)], Return df)
    ∧ sir_model (Q2Qc 1000) (Q2Qc 1) (Q2Qc 0) (Q2Qc 0.3) (Q2Qc 0.1) 2 = Ok df.
Proof. eexists. split; vm_compute; reflexivity. Qed.

(** A float [timesteps] is rejected by [np.zeros]. *)
Example run_sir_model_float_timesteps :
  (run_sir_model world_without_r
     (<["timesteps" := PyFloat (Q2Qc 160)]>
        (basic_params 1000 1 0 (Q2Qc 0.3) (Q2Qc 0.1) 160))).2
  = Throw TypeError.
Proof. reflexivity. Qed.

(** The whole run of the setup script when both installations fail. *)
Example main_with_failing_installs :
  main machine_with_failing_installs
  = ([Print "===== Epidemiological Modeling Dashboard Setup =====
";
      Run ["Rscript"; "--version"];
      Print "
Installing required R packages...";
      Run ["Rscript"; "install_packages.R"];
      Print "Error: Failed to install R packages.";
      Print "Please run 'Rscript install_packages.R' manually.";
      Print "
Installing required Python packages...";
      Run ["/usr/bin/python3"; "-m"; "pip"; "install"; "-r"; "requirements.txt"];
      Print "Error: Failed to install Python packages.";
      Print "Please run 'pip install -r requirements.txt' manually.";
      Print "
===== Setup Complete =====";
      Print "You can now run the dashboard with: streamlit run dashboard.py"],
     Return true).
Proof. reflexivity. Qed.

(** On Python 3.6 nothing is started. *)
Example main_on_old_python :
  main (mkMachine (3, 6) "3.6.9" "/usr/bin/python3" (Exited 0) (Exited 0) (Exited 0))
  = ([Print "===== Epidemiological Modeling Dashboard Setup =====
";
      Print "Error: Python 3.7 or higher is required.";
      Print "Current Python version: 3.6.9"],
     Return false).
Proof. reflexivity. Qed.
